(** * Nemesis NLP indexing service: a shallow embedding of
      [cmd/nlp/nlp/services/indexing.py] and the properties of its
      chunk-and-index pipeline.

    The file has four parts:
    - the Python values the service manipulates (strings as sequences of
      code points, exceptions, binary64 floats as far as [int(a / b)] needs
      them);
    - the service itself: [IndexingService.__init__] (here [init]) and
      [IndexingService.process_message], written in a small monad that
      carries Python exceptions and the trace of the calls made to the
      collaborators (storage, file system, text splitter, vector store,
      logger);
    - concrete collaborators and messages, on which the service runs;
    - the properties. *)

From Stdlib Require Import ZArith NArith Bool Lia Ascii String List.
Import ListNotations.

Set Implicit Arguments.

(* ================================================================== *)
(** * Python values *)
(* ================================================================== *)

Module Py.

(** A Python [str] is a sequence of Unicode code points. *)
Definition str := list N.

(** Code points of a Rocq string read as Latin-1, for writing literals. *)
Fixpoint of_string (s : string) : str :=
  match s with
  | EmptyString => []
  | String c s' => N_of_ascii c :: of_string s'
  end.

(** [str.isspace] on one code point: the code points CPython classifies as
    whitespace ([_PyUnicode_IsWhitespace]). *)
Definition isspace (c : N) : bool :=
  ((9 <=? c) && (c <=? 13)            (* \t \n \v \f \r *)
   || (28 <=? c) && (c <=? 32)        (* FS GS RS US and the space *)
   || (c =? 133) || (c =? 160)        (* NEL, no-break space *)
   || (c =? 5760)                     (* U+1680 *)
   || (8192 <=? c) && (c <=? 8202)    (* U+2000 .. U+200A *)
   || (c =? 8232) || (c =? 8233)      (* U+2028, U+2029 *)
   || (c =? 8239) || (c =? 8287)      (* U+202F, U+205F *)
   || (c =? 12288))%N.                (* U+3000 *)

Fixpoint lstrip (s : str) : str :=
  match s with
  | [] => []
  | c :: s' => if isspace c then lstrip s' else s
  end.

Definition rstrip (s : str) : str := rev (lstrip (rev s)).

(** [s.strip()] with no argument. *)
Definition strip (s : str) : str := rstrip (lstrip s).

(** Truth value of a string in a condition: non-empty. *)
Definition truthy (s : str) : bool :=
  match s with [] => false | _ :: _ => true end.

(** An exception instance.  [exc_is_Exception] tells whether its class
    derives from [Exception]: [KeyboardInterrupt], [SystemExit] and
    [asyncio.CancelledError] derive from [BaseException] only and pass
    through [except Exception]. *)
Record exc : Type := mk_exc {
  exc_class : string;
  exc_msg : string;
  exc_is_Exception : bool
}.

Definition ValueError (msg : string) : exc := mk_exc "ValueError" msg true.
Definition OverflowError (msg : string) : exc := mk_exc "OverflowError" msg true.
Definition ZeroDivisionError (msg : string) : exc :=
  mk_exc "ZeroDivisionError" msg true.

(** The outcome of evaluating an expression: a value or a raised
    exception. *)
Inductive result (A : Type) : Type :=
| Ok (a : A)
| Raise (e : exc).
Arguments Ok {A} a.
Arguments Raise {A} e.

Definition is_ok {A} (r : result A) : bool :=
  match r with Ok _ => true | Raise _ => false end.

(** ** binary64 floats, as far as [int(a / b)] on integers needs them *)

Local Open Scope Z_scope.

(** A finite float: (-1)^[f_neg] * [f_man] * 2^[f_exp], with
    0 <= [f_man] <= 2^53. *)
Record float : Type := mk_float {
  f_neg : bool;
  f_man : Z;
  f_exp : Z
}.

(** floor(log2(a / b)) for a, b > 0. *)
Definition ilog2_ratio (a b : Z) : Z :=
  let k := Z.log2 b + 1 in
  Z.log2 (a * 2 ^ k / b) - k.

(** Round num/den (num >= 0, den > 0) to the nearest integer, ties to
    even. *)
Definition round_half_even (num den : Z) : Z :=
  let m := num / den in
  let r := num mod den in
  if 2 * r <? den then m
  else if den <? 2 * r then m + 1
  else if Z.even m then m else m + 1.

(** The float nearest to a / b for a >= 0, b > 0: a 53-bit significand
    above the subnormal range, the fixed quantum 2^-1074 inside it.
    [None] when the rounded value is 2^1024 or more. *)
Definition nearest_float (a b : Z) : option (Z * Z) :=
  if a =? 0 then Some (0, 0) else
  let q := Z.max (ilog2_ratio a b - 52) (-1074) in
  let m := round_half_even (a * 2 ^ Z.max 0 (- q)) (b * 2 ^ Z.max 0 q) in
  if (971 <? q) || ((q =? 971) && (2 ^ 53 <=? m)) then None
  else Some (m, q).

(** [a / b] on two [int]s: the correctly rounded quotient (CPython's
    [long_true_divide]). *)
Definition truediv (a b : Z) : result float :=
  if b =? 0 then Raise (ZeroDivisionError "division by zero") else
  match nearest_float (Z.abs a) (Z.abs b) with
  | None => Raise (OverflowError "integer division result too large for a float")
  | Some (m, q) => Ok (mk_float (xorb (a <? 0) (b <? 0)) m q)
  end.

(** [int(x)] on a finite float: truncation toward zero. *)
Definition int_of_float (x : float) : Z :=
  let mag :=
    if 0 <=? f_exp x then f_man x * 2 ^ f_exp x
    else f_man x / 2 ^ (- f_exp x) in
  if f_neg x then - mag else mag.

Definition map_result {A B} (f : A -> B) (r : result A) : result B :=
  match r with Ok a => Ok (f a) | Raise e => Raise e end.

End Py.

Import Py.

Local Open Scope string_scope.
Local Open Scope list_scope.

(* ================================================================== *)
(** * The data the service handles *)
(* ================================================================== *)

(** A [uuid.UUID] object: the 128-bit integer it wraps. *)
Record UUID : Type := mk_UUID { uuid_int : N }.

(** The protobuf messages, with the fields [process_message] reads. *)
Module Pb.

Record FileDataPlaintext : Type := mk_FileDataPlaintext {
  object_id : Py.str;
  originating_object_id : Py.str;
  originating_object_path : Py.str;
  originating_object_converted_pdf : Py.str
}.

Record Metadata : Type := mk_Metadata { source : Py.str }.

Record FileDataPlaintextMessage : Type := mk_FileDataPlaintextMessage {
  metadata : Metadata;
  data : list FileDataPlaintext
}.

End Pb.

(** The metadata dict built for a chunk, one field per key. *)
Record ChunkMetadata : Type := mk_ChunkMetadata {
  md_source : Py.str;
  md_object_id : UUID;
  md_originating_object_id : Py.str;
  md_originating_object_path : Py.str;
  md_originating_object_pdf : Py.str
}.

(** The handle [storage.download] yields; the service reads its [name]. *)
Record TempFile : Type := mk_TempFile { name : Py.str }.

(** The settings [__init__] reads from [NLPSettings]. *)
Record NLPSettings : Type := mk_NLPSettings {
  text_chunk_size : Z;
  embedding_model : string;
  elasticsearch_url : string;
  elasticsearch_user : string;
  elasticsearch_password : string;
  elastic_index_name : string
}.

(** What [RecursiveCharacterTextSplitter.from_tiktoken_encoder] is given. *)
Record TextSplitter : Type := from_tiktoken_encoder {
  encoding_name : string;
  chunk_size : Z;
  chunk_overlap : Z
}.

Record IndexingService : Type := mk_IndexingService {
  cfg : NLPSettings;
  text_splitter : TextSplitter
}.

(** ** Log entries *)

Inductive LogLevel : Type := Info | Error.

(** The event of a log entry: the three f-strings of the service, kept
    structured, and the exception handed to [aexception]. *)
Inductive LogEvent : Type :=
| IndexingModel (model : string) (size overlap : Z)
| LoadingDocuments (n : nat)
| DocumentsLoaded (n : nat) (start stop : Py.float)
| ExceptionEvent (e : Py.exc).

Inductive CtxValue : Type :=
| CtxUUID (u : UUID)
| CtxStr (s : string).

(** A log entry: its level, its event and its context, the values bound
    to the logger followed by the keyword arguments of the call. *)
Record LogEntry : Type := mk_LogEntry {
  log_level : LogLevel;
  log_event : LogEvent;
  log_context : list (string * CtxValue)
}.

(** [logger = structlog.get_logger(module=__name__)]. *)
Definition logger_context : list (string * CtxValue) :=
  [("module", CtxStr "nlp.services.indexing")].

(** ** The trace of calls *)

Inductive Event : Type :=
| EvPrint (u : UUID)                      (* print(f"object_id: {object_id}") *)
| EvAcquire (u : UUID) (file : TempFile)  (* download returned, handle entered *)
| EvRelease (file : TempFile)             (* handle exited *)
| EvOpen (path : Py.str)                  (* open(path, 'r') returned *)
| EvClose (path : Py.str)                 (* file object exited *)
| EvSplitText (text : Py.str)             (* text_splitter.split_text called *)
| EvAddTexts (docs : list Py.str) (metadatas : list ChunkMetadata)
                                          (* vector_store.aadd_texts called *)
| EvLog (entry : LogEntry).

Definition Trace := list Event.

Definition is_add_texts (ev : Event) : bool :=
  match ev with EvAddTexts _ _ => true | _ => false end.

Definition is_split_text (ev : Event) : bool :=
  match ev with EvSplitText _ => true | _ => false end.

Definition is_error_log (ev : Event) : bool :=
  match ev with
  | EvLog entry => match log_level entry with Error => true | Info => false end
  | _ => false
  end.

Definition is_log (ev : Event) : bool :=
  match ev with EvLog _ => true | _ => false end.

Definition count (p : Event -> bool) (tr : Trace) : nat :=
  length (filter p tr).

(** Does the context of the log entry hold that key? *)
Definition has_key (key : string) (entry : LogEntry) : bool :=
  existsb (fun kv => String.eqb (fst kv) key) (log_context entry).

(** The handles acquired and not yet released, most recent first. *)
Definition TempFile_eqb (a b : TempFile) : bool :=
  if list_eq_dec N.eq_dec (name a) (name b) then true else false.

Fixpoint remove_first (file : TempFile) (held : list TempFile) : list TempFile :=
  match held with
  | [] => []
  | g :: held' => if TempFile_eqb file g then held' else g :: remove_first file held'
  end.

Fixpoint held_after (held : list TempFile) (tr : Trace) : list TempFile :=
  match tr with
  | [] => held
  | EvAcquire _ file :: tr' => held_after (file :: held) tr'
  | EvRelease file :: tr' => held_after (remove_first file held) tr'
  | _ :: tr' => held_after held tr'
  end.

(* ================================================================== *)
(** * The monad: exceptions and the trace of calls *)
(* ================================================================== *)

(** A computation reads the history (the calls made so far), yields a
    value or raises, and adds its own calls to the trace. *)
Definition M (A : Type) : Type := Trace -> Py.result A * Trace.

Definition ret {A} (a : A) : M A := fun _ => (Ok a, []).

Definition bind {A B} (m : M A) (f : A -> M B) : M B :=
  fun h =>
    match m h with
    | (Ok a, d) => let (r, d') := f a (h ++ d) in (r, d ++ d')
    | (Raise e, d) => (Raise e, d)
    end.

Notation "x <- m ;; k" := (bind m (fun x => k))
  (at level 61, m at next level, right associativity).
Notation "m ;; k" := (bind m (fun _ => k))
  (at level 61, right associativity).

(** A pure library call that may raise. *)
Definition lift {A} (r : Py.result A) : M A := fun _ => (r, []).

(** A call to a collaborator whose outcome may depend on the history. *)
Definition call {A} (oracle : Trace -> Py.result A) : M A :=
  fun h => (oracle h, []).

Definition emit (ev : Event) : M unit := fun _ => (Ok tt, [ev]).

(** [try: m  except Exception as e: handler e]. *)
Definition try_except_Exception {A} (m : M A) (handler : Py.exc -> M A) : M A :=
  fun h =>
    match m h with
    | (Ok a, d) => (Ok a, d)
    | (Raise e, d) =>
        if exc_is_Exception e
        then let (r, d') := handler e (h ++ d) in (r, d ++ d')
        else (Raise e, d)
    end.

(** [with acquire as r: body r]: the handle is exited, whatever the body
    does; exiting neither raises nor swallows the body's exception. *)
Definition with_ {R A} (acquire : M R) (release : R -> Event) (body : R -> M A)
  : M A :=
  r <- acquire ;;
  fun h => let (res, d) := body r h in (res, d ++ [release r]).

(** [for x in xs: body x]. *)
Fixpoint for_each {A} (xs : list A) (body : A -> M unit) : M unit :=
  match xs with
  | [] => ret tt
  | x :: xs' => body x ;; for_each xs' body
  end.

(* ================================================================== *)
(** * The collaborators *)
(* ================================================================== *)

(** The behaviour of what the service calls and does not define: the
    [uuid] module, the storage, the file system, the text splitter, the
    vector store and the clock.  Calls with effects see the history;
    [uuid.UUID] and the splitter, a library object built once in
    [__init__], are taken as functions of their arguments. *)
Record Collaborators : Type := mk_Collaborators {
  uuid_UUID : Py.str -> Py.result UUID;
  storage_download : Trace -> UUID -> Py.result TempFile;
  builtin_open : Trace -> Py.str -> Py.result unit;
  file_read : Trace -> Py.str -> Py.result Py.str;
  split_text : TextSplitter -> Py.str -> Py.result (list Py.str);
  aadd_texts : Trace -> list Py.str -> list ChunkMetadata -> Py.result unit;
  time_time : Trace -> Py.float
}.

(* ================================================================== *)
(** * IndexingService *)
(* ================================================================== *)

(** [logger.info], [logger.ainfo]: an entry at level info. *)
Definition ainfo (ev : LogEvent) (kwargs : list (string * CtxValue)) : M unit :=
  emit (EvLog (mk_LogEntry Info ev (logger_context ++ kwargs))).

(** [logger.aexception]: an entry at level error. *)
Definition aexception (e : Py.exc) (kwargs : list (string * CtxValue)) : M unit :=
  emit (EvLog (mk_LogEntry Error (ExceptionEvent e)
                (logger_context ++ kwargs))).

(** [chunk_overlap = int(chunk_size/15)]. *)
Definition overlap_of (chunk_size : Z) : Py.result Z :=
  Py.map_result Py.int_of_float (Py.truediv chunk_size 15).

(** [IndexingService.__init__], as far as lines 37 to 39 and the
    arguments of line 55 go.  [text_chunk_size] is the integer that
    [int(self.cfg.text_chunk_size)] yields.  The constructors of the
    embedding model, of the vector store and of the splitter are the
    libraries' and are taken to return: what they refuse (a splitter
    whose overlap exceeds its chunk size, as at a negative size) is not
    modelled. *)
Definition init (cfg : NLPSettings) : M IndexingService :=
  let chunk_size := text_chunk_size cfg in
  chunk_overlap <- lift (overlap_of chunk_size) ;;
  ainfo (IndexingModel (embedding_model cfg) chunk_size chunk_overlap) [] ;;
  ret (mk_IndexingService cfg
         (from_tiktoken_encoder "cl100k_base" chunk_size chunk_overlap)).

Section Service.

Variable env : Collaborators.

(** The suite of the [try] statement in the loop of [process_message]:
    the print, the two [with] blocks and what they enclose. *)
Definition process_data_try (self : IndexingService) (source : Py.str)
    (object_id : UUID)
    (originating_object_id originating_object_path
       originating_object_converted_pdf : Py.str)
  : M unit :=
  emit (EvPrint object_id) ;;
  with_ (file <- call (fun h => storage_download env h object_id) ;;
         emit (EvAcquire object_id file) ;; ret file)
        EvRelease
    (fun file =>
  with_ (call (fun h => builtin_open env h (name file)) ;;
         emit (EvOpen (name file)) ;; ret (name file))
        EvClose
    (fun f =>
       text <- call (fun h => file_read env h f) ;;
       if Py.truthy (Py.strip text) then
         emit (EvSplitText text) ;;
         docs <- lift (split_text env (text_splitter self) text) ;;
         let metadata :=
           repeat (mk_ChunkMetadata source object_id originating_object_id
                     originating_object_path
                     originating_object_converted_pdf)
                  (length docs) in
         ainfo (LoadingDocuments (length docs))
               [("object_id", CtxUUID object_id)] ;;
         start <- call (fun h => Ok (time_time env h)) ;;
         emit (EvAddTexts docs metadata) ;;
         call (fun h => aadd_texts env h docs metadata) ;;
         stop <- call (fun h => Ok (time_time env h)) ;;
         ainfo (DocumentsLoaded (length docs) start stop)
               [("object_id", CtxUUID object_id)]
       else ret tt)).

(** The [except Exception as e] clause. *)
Definition process_data_except (e : Py.exc) : M unit :=
  aexception e
    [("message", CtxStr "exception in processing a plaintext file")].

(** The body of the loop of [process_message], for one [data]. *)
Definition process_data (self : IndexingService)
    (event : Pb.FileDataPlaintextMessage) (data : Pb.FileDataPlaintext)
  : M unit :=
  object_id <- lift (uuid_UUID env (Pb.object_id data)) ;;
  let originating_object_id := Pb.originating_object_id data in
  let originating_object_path := Pb.originating_object_path data in
  let originating_object_converted_pdf :=
    Pb.originating_object_converted_pdf data in
  let source := Pb.source (Pb.metadata event) in
  try_except_Exception
    (process_data_try self source object_id originating_object_id
       originating_object_path originating_object_converted_pdf)
    process_data_except.

(** [IndexingService.process_message]; the timing decorator is left to
    the metrics. *)
Definition process_message (self : IndexingService)
    (event : Pb.FileDataPlaintextMessage) : M unit :=
  for_each (Pb.data event) (process_data self event).

End Service.

(** The metadata dict of a chunk of [data] in [event], once the object id
    is parsed. *)
Definition metadata_of (event : Pb.FileDataPlaintextMessage)
    (data : Pb.FileDataPlaintext) (object_id : UUID) : ChunkMetadata :=
  mk_ChunkMetadata (Pb.source (Pb.metadata event)) object_id
    (Pb.originating_object_id data) (Pb.originating_object_path data)
    (Pb.originating_object_converted_pdf data).

(** A text that is empty or holds whitespace only. *)
Definition blank (text : Py.str) : bool := forallb Py.isspace text.

Definition is_acquire (ev : Event) : bool :=
  match ev with EvAcquire _ _ => true | _ => false end.

Definition is_release (ev : Event) : bool :=
  match ev with EvRelease _ => true | _ => false end.

(** The entry the [except] clause logs for [e]. *)
Definition exception_entry (e : Py.exc) : LogEntry :=
  mk_LogEntry Error (ExceptionEvent e)
    (logger_context
       ++ [("message", CtxStr "exception in processing a plaintext file")]).

(** What the [try] statement makes of the outcome of its suite. *)
Definition handled (run : Py.result unit * Trace) : Py.result unit * Trace :=
  match run with
  | (Raise e, d) =>
      if exc_is_Exception e then (Ok tt, d ++ [EvLog (exception_entry e)])
      else (Raise e, d)
  | (Ok a, d) => (Ok a, d)
  end.

(** The two info entries of the suite. *)
Definition loading_entry (docs : list Py.str) (u : UUID) : LogEntry :=
  mk_LogEntry Info (LoadingDocuments (length docs))
    (logger_context ++ [("object_id", CtxUUID u)]).

Definition loaded_entry (docs : list Py.str) (start stop : Py.float) (u : UUID)
  : LogEntry :=
  mk_LogEntry Info (DocumentsLoaded (length docs) start stop)
    (logger_context ++ [("object_id", CtxUUID u)]).

(** ** The runs of the [try] suite

    One constructor per way through the suite of the [try] statement: each
    gives the outcome of the suite, the calls it makes, and what the
    collaborators answered along the way. *)
Section Runs.

Variable env : Collaborators.
Variable self : IndexingService.
Variable md : ChunkMetadata.
Variable u : UUID.
Variable h : Trace.

Inductive TryRun : Py.result unit -> Trace -> Prop :=
| TryDownloadRaises e :
    storage_download env (h ++ [EvPrint u]) u = Raise e ->
    TryRun (Raise e) [EvPrint u]
| TryOpenRaises file e :
    storage_download env (h ++ [EvPrint u]) u = Ok file ->
    builtin_open env (h ++ [EvPrint u; EvAcquire u file]) (name file) = Raise e ->
    TryRun (Raise e) [EvPrint u; EvAcquire u file; EvRelease file]
| TryReadRaises file e :
    storage_download env (h ++ [EvPrint u]) u = Ok file ->
    builtin_open env (h ++ [EvPrint u; EvAcquire u file]) (name file) = Ok tt ->
    file_read env (h ++ [EvPrint u; EvAcquire u file; EvOpen (name file)])
      (name file) = Raise e ->
    TryRun (Raise e)
      [EvPrint u; EvAcquire u file; EvOpen (name file); EvClose (name file);
       EvRelease file]
| TryBlank file text :
    storage_download env (h ++ [EvPrint u]) u = Ok file ->
    builtin_open env (h ++ [EvPrint u; EvAcquire u file]) (name file) = Ok tt ->
    file_read env (h ++ [EvPrint u; EvAcquire u file; EvOpen (name file)])
      (name file) = Ok text ->
    blank text = true ->
    TryRun (Ok tt)
      [EvPrint u; EvAcquire u file; EvOpen (name file); EvClose (name file);
       EvRelease file]
| TrySplitRaises file text e :
    storage_download env (h ++ [EvPrint u]) u = Ok file ->
    builtin_open env (h ++ [EvPrint u; EvAcquire u file]) (name file) = Ok tt ->
    file_read env (h ++ [EvPrint u; EvAcquire u file; EvOpen (name file)])
      (name file) = Ok text ->
    blank text = false ->
    split_text env (text_splitter self) text = Raise e ->
    TryRun (Raise e)
      [EvPrint u; EvAcquire u file; EvOpen (name file); EvSplitText text;
       EvClose (name file); EvRelease file]
| TryAddRaises file text docs e :
    storage_download env (h ++ [EvPrint u]) u = Ok file ->
    builtin_open env (h ++ [EvPrint u; EvAcquire u file]) (name file) = Ok tt ->
    file_read env (h ++ [EvPrint u; EvAcquire u file; EvOpen (name file)])
      (name file) = Ok text ->
    blank text = false ->
    split_text env (text_splitter self) text = Ok docs ->
    aadd_texts env
      (h ++ [EvPrint u; EvAcquire u file; EvOpen (name file); EvSplitText text;
             EvLog (loading_entry docs u);
             EvAddTexts docs (repeat md (length docs))])
      docs (repeat md (length docs)) = Raise e ->
    TryRun (Raise e)
      [EvPrint u; EvAcquire u file; EvOpen (name file); EvSplitText text;
       EvLog (loading_entry docs u);
       EvAddTexts docs (repeat md (length docs));
       EvClose (name file); EvRelease file]
| TryIndexed file text docs :
    storage_download env (h ++ [EvPrint u]) u = Ok file ->
    builtin_open env (h ++ [EvPrint u; EvAcquire u file]) (name file) = Ok tt ->
    file_read env (h ++ [EvPrint u; EvAcquire u file; EvOpen (name file)])
      (name file) = Ok text ->
    blank text = false ->
    split_text env (text_splitter self) text = Ok docs ->
    aadd_texts env
      (h ++ [EvPrint u; EvAcquire u file; EvOpen (name file); EvSplitText text;
             EvLog (loading_entry docs u);
             EvAddTexts docs (repeat md (length docs))])
      docs (repeat md (length docs)) = Ok tt ->
    TryRun (Ok tt)
      [EvPrint u; EvAcquire u file; EvOpen (name file); EvSplitText text;
       EvLog (loading_entry docs u);
       EvAddTexts docs (repeat md (length docs));
       EvLog (loaded_entry docs
                (time_time env
                   (h ++ [EvPrint u; EvAcquire u file; EvOpen (name file);
                          EvSplitText text; EvLog (loading_entry docs u)]))
                (time_time env
                   (h ++ [EvPrint u; EvAcquire u file; EvOpen (name file);
                          EvSplitText text; EvLog (loading_entry docs u);
                          EvAddTexts docs (repeat md (length docs))]))
                u);
       EvClose (name file); EvRelease file].

End Runs.

(** ** Failure of a document, and what is observed of it *)

(** The suite of the [try] statement for [data], its object id parsed. *)
Definition suite_of (env : Collaborators) (self : IndexingService)
    (event : Pb.FileDataPlaintextMessage) (data : Pb.FileDataPlaintext)
    (u : UUID) : M unit :=
  process_data_try env self (Pb.source (Pb.metadata event)) u
    (Pb.originating_object_id data) (Pb.originating_object_path data)
    (Pb.originating_object_converted_pdf data).

(** The processing of [data] fails: [uuid.UUID] raises, or a step of the
    suite does. *)
Definition processing_fails (env : Collaborators) (self : IndexingService)
    (event : Pb.FileDataPlaintextMessage) (data : Pb.FileDataPlaintext)
    (h : Trace) : Prop :=
  match uuid_UUID env (Pb.object_id data) with
  | Raise _ => True
  | Ok u => exists e, fst (suite_of env self event data u h) = Raise e
  end.

Definition is_error_log_with (key : string) (ev : Event) : bool :=
  match ev with
  | EvLog entry => is_error_log ev && has_key key entry
  | _ => false
  end.

(** A failure that is contained, has called the vector store not at all,
    and is logged once, with the object id in the context of the entry. *)
Definition contained_unindexed_logged (run : Py.result unit * Trace) : Prop :=
  fst run = Ok tt
  /\ count is_add_texts (snd run) = 0
  /\ count is_error_log (snd run) = 1
  /\ count (is_error_log_with "object_id") (snd run) = 1.

Definition is_print (ev : Event) : bool :=
  match ev with EvPrint _ => true | _ => false end.

(** Collaborators whose exceptions all derive from [Exception]. *)
Definition raises_only_Exception (env : Collaborators) : Prop :=
  (forall h u e, storage_download env h u = Raise e -> exc_is_Exception e = true)
  /\ (forall h path e, builtin_open env h path = Raise e ->
                       exc_is_Exception e = true)
  /\ (forall h path e, file_read env h path = Raise e ->
                       exc_is_Exception e = true)
  /\ (forall sp text e, split_text env sp text = Raise e ->
                        exc_is_Exception e = true)
  /\ (forall h docs metas e, aadd_texts env h docs metas = Raise e ->
                             exc_is_Exception e = true).

(** ** Observations on whole runs *)

(** The object ids printed, in order. *)
Fixpoint printed (tr : Trace) : list UUID :=
  match tr with
  | [] => []
  | EvPrint u :: tr' => u :: printed tr'
  | _ :: tr' => printed tr'
  end.

Definition is_open (ev : Event) : bool :=
  match ev with EvOpen _ => true | _ => false end.

Definition is_loading_log (ev : Event) : bool :=
  match ev with
  | EvLog entry =>
      match log_event entry with LoadingDocuments _ => true | _ => false end
  | _ => false
  end.

Definition is_loaded_log (ev : Event) : bool :=
  match ev with
  | EvLog entry =>
      match log_event entry with DocumentsLoaded _ _ _ => true | _ => false end
  | _ => false
  end.

(** What a [with] statement holds: the handle of a download, or the file
    object opened on a path. *)
Inductive Scope : Type :=
| HandleScope (file : TempFile)
| FileScope (path : Py.str).

Definition str_eqb (a b : Py.str) : bool :=
  if list_eq_dec N.eq_dec a b then true else false.

(** Reads a trace against the stack of scopes held, innermost first, and
    yields the stack at its end.  [None] when a call is out of place: a
    file opened elsewhere than on the name of the innermost handle, a
    close or a release of what is not the innermost scope, a call to the
    splitter or to the vector store outside an open file under a held
    handle. *)
Fixpoint scoped (stack : list Scope) (tr : Trace) : option (list Scope) :=
  match tr with
  | [] => Some stack
  | ev :: tr' =>
      match ev with
      | EvAcquire _ file => scoped (HandleScope file :: stack) tr'
      | EvOpen path =>
          match stack with
          | HandleScope file :: _ =>
              if str_eqb path (name file)
              then scoped (FileScope path :: stack) tr' else None
          | _ => None
          end
      | EvClose path =>
          match stack with
          | FileScope p :: stack' =>
              if str_eqb path p then scoped stack' tr' else None
          | _ => None
          end
      | EvRelease file =>
          match stack with
          | HandleScope g :: stack' =>
              if TempFile_eqb file g then scoped stack' tr' else None
          | _ => None
          end
      | EvSplitText _ | EvAddTexts _ _ =>
          match stack with
          | FileScope _ :: HandleScope _ :: _ => scoped stack tr'
          | _ => None
          end
      | EvPrint _ | EvLog _ => scoped stack tr'
      end
  end.

(** The object ids [uuid.UUID] makes of the documents, as far as it
    accepts them one after the other. *)
Fixpoint parsed_prefix (env : Collaborators) (ds : list Pb.FileDataPlaintext)
  : list UUID :=
  match ds with
  | [] => []
  | data :: ds' =>
      match uuid_UUID env (Pb.object_id data) with
      | Ok u => u :: parsed_prefix env ds'
      | Raise _ => []
      end
  end.

(** Collaborators whose answers do not depend on the calls made before. *)
Definition ignores_history (env : Collaborators) : Prop :=
  (forall h h' u, storage_download env h u = storage_download env h' u)
  /\ (forall h h' path, builtin_open env h path = builtin_open env h' path)
  /\ (forall h h' path, file_read env h path = file_read env h' path)
  /\ (forall h h' docs metas,
         aadd_texts env h docs metas = aadd_texts env h' docs metas)
  /\ (forall h h', time_time env h = time_time env h').

(** The least chunk size whose fifteenth rounds to 2^1024, past the
    largest float. *)
Definition overflow_size : Z := (15 * (2 ^ 1024 - 2 ^ 970))%Z.

(** ** The loop body, with the parse of the object id as a step *)

(** What the loop body does, one step after the other: an evaluation of
    [uuid.UUID] on a string, or a call of the trace. *)
Inductive Step : Type :=
| StepUUID (raw : Py.str)
| StepCall (ev : Event).

Definition is_uuid_step (st : Step) : bool :=
  match st with StepUUID _ => true | StepCall _ => false end.

(** The calls among the steps. *)
Fixpoint calls_of (steps : list Step) : Trace :=
  match steps with
  | [] => []
  | StepUUID _ :: steps' => calls_of steps'
  | StepCall ev :: steps' => ev :: calls_of steps'
  end.

(** The body of the loop of [process_message] once more, for one [data],
    with the evaluation of [uuid.UUID(data.object_id)] of line 67 recorded
    among the steps: that evaluation, then the [try] statement. *)
Definition process_data_steps (env : Collaborators) (self : IndexingService)
    (event : Pb.FileDataPlaintextMessage) (data : Pb.FileDataPlaintext)
    (h : Trace) : Py.result unit * list Step :=
  match uuid_UUID env (Pb.object_id data) with
  | Raise e => (Raise e, [StepUUID (Pb.object_id data)])
  | Ok object_id =>
      let originating_object_id := Pb.originating_object_id data in
      let originating_object_path := Pb.originating_object_path data in
      let originating_object_converted_pdf :=
        Pb.originating_object_converted_pdf data in
      let source := Pb.source (Pb.metadata event) in
      let (r, d) :=
        try_except_Exception
          (process_data_try env self source object_id originating_object_id
             originating_object_path originating_object_converted_pdf)
          process_data_except h in
      (r, StepUUID (Pb.object_id data) :: map StepCall d)
  end.

(** The object ids a call is given: the id printed, the id handed to the
    storage, the ids in the metadata records handed to the vector store,
    the ids in the context of a log entry. *)
Definition context_ids (ctx : list (string * CtxValue)) : list UUID :=
  flat_map (fun kv => match snd kv with CtxUUID u => [u] | CtxStr _ => [] end)
    ctx.

Definition ids_used (ev : Event) : list UUID :=
  match ev with
  | EvPrint u => [u]
  | EvAcquire u _ => [u]
  | EvAddTexts _ metadatas => map md_object_id metadatas
  | EvLog entry => context_ids (log_context entry)
  | EvRelease _ | EvOpen _ | EvClose _ | EvSplitText _ => []
  end.

(* ================================================================== *)
(** * Concrete collaborators and messages *)
(* ================================================================== *)

(** Instances of the collaborators on which the service can be run: a
    parser for the hexadecimal form of a UUID, a store with two objects, a
    splitter that cuts at whitespace, and a vector store that is either up
    or down. *)
Module Examples.

Definition hex_digit (c : N) : option N :=
  if ((48 <=? c) && (c <=? 57))%N then Some (c - 48)%N
  else if ((97 <=? c) && (c <=? 102))%N then Some (c - 87)%N
  else if ((65 <=? c) && (c <=? 70))%N then Some (c - 55)%N
  else None.

Fixpoint hex_value (acc : N) (s : Py.str) : option N :=
  match s with
  | [] => Some acc
  | c :: s' =>
      match hex_digit c with
      | Some v => hex_value (16 * acc + v)%N s'
      | None => None
      end
  end.

(** A parser of object ids: 32 hexadecimal digits, hyphens ignored.  It
    stands for [uuid.UUID] in the runs below and agrees with it on their
    strings; [uuid.UUID] takes more spellings (braces, a [urn:uuid:]
    prefix), which no run below uses. *)
Definition uuid_of_hex (s : Py.str) : Py.result UUID :=
  let hex := filter (fun c => negb (c =? 45)%N) s in
  if (length hex =? 32)%nat then
    match hex_value 0 hex with
    | Some n => Ok (mk_UUID n)
    | None => Raise (Py.ValueError "invalid literal for int() with base 16")
    end
  else Raise (Py.ValueError "badly formed hexadecimal UUID string").

Definition U1 : Py.str := Py.of_string "00000000-0000-0000-0000-000000000001".
Definition U2 : Py.str := Py.of_string "00000000-0000-0000-0000-000000000002".
Definition U3 : Py.str := Py.of_string "00000000-0000-0000-0000-000000000003".
Definition malformed : Py.str := Py.of_string "not-a-uuid".

Definition file_a : TempFile := mk_TempFile (Py.of_string "/tmp/a").
Definition file_b : TempFile := mk_TempFile (Py.of_string "/tmp/b").

Definition not_found : Py.exc := Py.mk_exc "FileNotFoundError" "not found" true.
Definition store_down : Py.exc :=
  Py.mk_exc "ConnectionError" "connection refused" true.
Definition cancelled : Py.exc := Py.mk_exc "CancelledError" "" false.

(** Object 1 and object 2 exist, nothing else. *)
Definition download (_ : Trace) (u : UUID) : Py.result TempFile :=
  if (uuid_int u =? 1)%N then Ok file_a
  else if (uuid_int u =? 2)%N then Ok file_b
  else Raise not_found.

(** Object 1 holds two words, object 2 whitespace only. *)
Definition read (_ : Trace) (path : Py.str) : Py.result Py.str :=
  if list_eq_dec N.eq_dec path (name file_a) then Ok (Py.of_string "alpha beta")
  else Ok [32; 10; 9; 160; 8195]%N.

(** The maximal runs of non-whitespace code points. *)
Fixpoint words (cur : Py.str) (s : Py.str) : list Py.str :=
  match s with
  | [] => match cur with [] => [] | _ => [rev cur] end
  | c :: s' =>
      if Py.isspace c
      then match cur with [] => words [] s' | _ => rev cur :: words [] s' end
      else words (c :: cur) s'
  end.

Definition now : Py.float := Py.mk_float false 0 0.

Definition env : Collaborators :=
  mk_Collaborators uuid_of_hex download (fun _ _ => Ok tt) read
    (fun _ text => Ok (words [] text)) (fun _ _ _ => Ok tt) (fun _ => now).

(** The same, with the vector store refusing every call. *)
Definition env_store_down : Collaborators :=
  mk_Collaborators uuid_of_hex download (fun _ _ => Ok tt) read
    (fun _ text => Ok (words [] text)) (fun _ _ _ => Raise store_down)
    (fun _ => now).

(** The same, with a splitter that refuses every text, as tiktoken refuses
    a text that holds a special token. *)
Definition special_token : Py.exc :=
  Py.ValueError "Encountered text corresponding to disallowed special token".

Definition env_splitter_raises : Collaborators :=
  mk_Collaborators uuid_of_hex download (fun _ _ => Ok tt) read
    (fun _ _ => Raise special_token) (fun _ _ _ => Ok tt) (fun _ => now).

(** The same, with the download cancelled. *)
Definition env_cancelled : Collaborators :=
  mk_Collaborators uuid_of_hex (fun _ _ => Raise cancelled) (fun _ _ => Ok tt)
    read (fun _ text => Ok (words [] text)) (fun _ _ _ => Ok tt)
    (fun _ => now).

Definition settings : NLPSettings :=
  mk_NLPSettings 500 "model" "http://es:9200" "user" "secret" "text_embeddings".

Definition service : IndexingService :=
  mk_IndexingService settings (from_tiktoken_encoder "cl100k_base" 500 33).

(** Settings whose chunk size is [overflow_size]. *)
Definition settings_overflow : NLPSettings :=
  mk_NLPSettings overflow_size "model" "http://es:9200" "user" "secret"
    "text_embeddings".

Definition data_of (id : Py.str) : Pb.FileDataPlaintext :=
  Pb.mk_FileDataPlaintext id (Py.of_string "origin") (Py.of_string "C:/docs/a.docx")
    (Py.of_string "pdf").

Definition message_of (ids : list Py.str) : Pb.FileDataPlaintextMessage :=
  Pb.mk_FileDataPlaintextMessage (Pb.mk_Metadata (Py.of_string "web"))
    (map data_of ids).

Definition md1 : ChunkMetadata :=
  mk_ChunkMetadata (Py.of_string "web") (mk_UUID 1) (Py.of_string "origin")
    (Py.of_string "C:/docs/a.docx") (Py.of_string "pdf").

End Examples.

(* ================================================================== *)
(** * Properties *)
(* ================================================================== *)

(** ** The monad *)

Ltac norm_hist :=
  repeat rewrite app_nil_r; repeat rewrite <- app_assoc; simpl.

(** ** Whitespace *)

Lemma lstrip_blank (s : Py.str) : blank s = true -> Py.lstrip s = [].
Proof.
  unfold blank. induction s as [|c s IH]; simpl; intros H.
  - reflexivity.
  - apply andb_true_iff in H. destruct H as [Hc Hs]. rewrite Hc. auto.
Qed.

Lemma lstrip_not_blank (s : Py.str) :
  blank s = false -> exists c s', Py.lstrip s = c :: s' /\ Py.isspace c = false.
Proof.
  unfold blank. induction s as [|c s IH]; simpl; intros H.
  - discriminate.
  - destruct (Py.isspace c) eqn:Hc; simpl in H.
    + auto.
    + exists c, s. auto.
Qed.

Lemma lstrip_last (s : Py.str) (c : N) :
  Py.isspace c = false -> exists d s', Py.lstrip (s ++ [c]) = d :: s'.
Proof.
  intros Hc. induction s as [|a s IH]; simpl.
  - rewrite Hc. eauto.
  - destruct (Py.isspace a); eauto.
Qed.

(** [text.strip()] is falsy exactly on a blank text. *)
Lemma truthy_strip (text : Py.str) :
  Py.truthy (Py.strip text) = negb (blank text).
Proof.
  destruct (blank text) eqn:Hb; simpl.
  - unfold Py.strip, Py.rstrip. rewrite (lstrip_blank _ Hb). reflexivity.
  - destruct (lstrip_not_blank _ Hb) as (c & s' & Hl & Hc).
    unfold Py.strip, Py.rstrip. rewrite Hl. simpl.
    destruct (lstrip_last (rev s') c Hc) as (d & t & Ht). rewrite Ht.
    simpl. destruct (rev t); reflexivity.
Qed.

(** ** The runs of the service *)

Section RunLemmas.

Variable env : Collaborators.
Variable self : IndexingService.

(** Every run of the suite of the [try] statement is one of the seven of
    [TryRun]; in particular the suite always returns or raises. *)
Lemma process_data_try_run source u oid opath opdf h :
  let run := process_data_try env self source u oid opath opdf h in
  TryRun env self (mk_ChunkMetadata source u oid opath opdf) u h
    (fst run) (snd run).
Proof.
  unfold process_data_try, with_, bind, call, lift, emit, ret, ainfo. simpl.
  destruct (storage_download env (h ++ [EvPrint u]) u) as [file|e] eqn:Hd; simpl.
  2: { now apply TryDownloadRaises. }
  norm_hist.
  destruct (builtin_open env _ (name file)) as [[]|e] eqn:Ho; simpl.
  2: { now apply TryOpenRaises. }
  norm_hist.
  destruct (file_read env _ (name file)) as [text|e] eqn:Hr; simpl.
  2: { now apply TryReadRaises. }
  rewrite truthy_strip.
  destruct (blank text) eqn:Hb; simpl.
  { now apply TryBlank with (text := text). }
  destruct (split_text env (text_splitter self) text) as [docs|e] eqn:Hs; simpl.
  2: { now apply TrySplitRaises with (text := text). }
  norm_hist.
  destruct (aadd_texts env _ docs _) as [[]|e] eqn:Ha; simpl.
  - now apply TryIndexed with (text := text).
  - now apply TryAddRaises with (text := text).
Qed.

(** A malformed object id: the exception of [uuid.UUID] leaves the loop
    body before the [try] statement is entered. *)
Lemma process_data_bad_id event data h e :
  uuid_UUID env (Pb.object_id data) = Raise e ->
  process_data env self event data h = (Raise e, []).
Proof.
  intros Hp. unfold process_data, bind, lift. rewrite Hp. reflexivity.
Qed.

(** A well-formed object id: the loop body is the [try] statement. *)
Lemma process_data_good_id event data h u :
  uuid_UUID env (Pb.object_id data) = Ok u ->
  process_data env self event data h
  = handled (process_data_try env self (Pb.source (Pb.metadata event)) u
               (Pb.originating_object_id data)
               (Pb.originating_object_path data)
               (Pb.originating_object_converted_pdf data) h).
Proof.
  intros Hp. unfold process_data, bind, lift, try_except_Exception, handled.
  rewrite Hp. norm_hist.
  destruct (process_data_try _ _ _ _ _ _ _ h) as [[[]|e] d]; simpl.
  - reflexivity.
  - unfold process_data_except, aexception, emit, exception_entry.
    destruct (exc_is_Exception e); reflexivity.
Qed.

(** The runs of the loop body: the id is malformed and nothing is done, or
    the suite runs and its outcome is handled. *)
Lemma process_data_cases event data h :
  (exists e, uuid_UUID env (Pb.object_id data) = Raise e
             /\ process_data env self event data h = (Raise e, []))
  \/ (exists u r d,
        uuid_UUID env (Pb.object_id data) = Ok u
        /\ TryRun env self (metadata_of event data u) u h r d
        /\ process_data env self event data h = handled (r, d)).
Proof.
  destruct (uuid_UUID env (Pb.object_id data)) as [u|e] eqn:Hp.
  - right.
    pose proof (process_data_try_run (Pb.source (Pb.metadata event)) u
                  (Pb.originating_object_id data)
                  (Pb.originating_object_path data)
                  (Pb.originating_object_converted_pdf data) h) as Hrun.
    simpl in Hrun.
    rewrite (process_data_good_id event data h Hp).
    destruct (process_data_try _ _ _ _ _ _ _ h) as [r d]. simpl in Hrun.
    exists u, r, d. auto.
  - left. exists e. split; [reflexivity|].
    now apply process_data_bad_id.
Qed.

End RunLemmas.

(** Membership in a handled run: an event that is not the entry of the
    [except] clause was already in the run of the suite. *)
Lemma in_handled r d ev :
  In ev (snd (handled (r, d))) ->
  In ev d \/ exists e, r = Raise e /\ ev = EvLog (exception_entry e).
Proof.
  destruct r as [[]|e]; simpl; auto.
  destruct (exc_is_Exception e); simpl; auto.
  rewrite in_app_iff. simpl. intros [H|[H|[]]]; eauto.
Qed.

Lemma count_app p (a b : Trace) : count p (a ++ b) = count p a + count p b.
Proof. unfold count. now rewrite filter_app, length_app. Qed.

(** Solves goals on runs whose collaborators' answers contradict or fix
    one another. *)
Ltac same_answers :=
  repeat match goal with
  | H1 : ?x = Ok _, H2 : ?x = Raise _ |- _ => rewrite H1 in H2; discriminate H2
  | H1 : ?x = Ok ?a, H2 : ?x = Ok ?b |- _ =>
      rewrite H1 in H2; injection H2 as H2; try subst b; try subst a
  | H1 : ?x = true, H2 : ?x = false |- _ => rewrite H1 in H2; discriminate H2
  end.

(** ** Empty and whitespace-only texts *)

(** C2.  When the text read for a document is empty or holds whitespace
    only, the loop body returns normally after the handle is opened, closed
    and released: the splitter is not called, no metadata is built, nothing
    is sent to the vector store and nothing is logged. *)
Theorem blank_text_skipped env self event data h u file text :
  uuid_UUID env (Pb.object_id data) = Ok u ->
  storage_download env (h ++ [EvPrint u]) u = Ok file ->
  builtin_open env (h ++ [EvPrint u; EvAcquire u file]) (name file) = Ok tt ->
  file_read env (h ++ [EvPrint u; EvAcquire u file; EvOpen (name file)])
    (name file) = Ok text ->
  blank text = true ->
  let run := process_data env self event data h in
  run = (Ok tt, [EvPrint u; EvAcquire u file; EvOpen (name file);
                 EvClose (name file); EvRelease file])
  /\ count is_split_text (snd run) = 0
  /\ count is_add_texts (snd run) = 0
  /\ count is_log (snd run) = 0.
Proof.
  intros Hp Hd Ho Hr Hb run.
  assert (Hrun : run = (Ok tt, [EvPrint u; EvAcquire u file; EvOpen (name file);
                                EvClose (name file); EvRelease file])).
  { subst run.
    destruct (process_data_cases env self event data h)
      as [(e & Hp' & _)|(u' & r & d & Hp' & Hrun & Heq)]; same_answers.
    rewrite Heq. destruct Hrun; same_answers; reflexivity. }
  rewrite Hrun. repeat split.
Qed.

Lemma blank_text_skipped_witness :
  let run := process_data Examples.env Examples.service
               (Examples.message_of [Examples.U2])
               (Examples.data_of Examples.U2) [] in
  run = (Ok tt, [EvPrint (mk_UUID 2); EvAcquire (mk_UUID 2) Examples.file_b;
                 EvOpen (name Examples.file_b); EvClose (name Examples.file_b);
                 EvRelease Examples.file_b])
  /\ count is_split_text (snd run) = 0
  /\ count is_add_texts (snd run) = 0
  /\ count is_log (snd run) = 0.
Proof.
  apply (@blank_text_skipped Examples.env Examples.service
           (Examples.message_of [Examples.U2]) (Examples.data_of Examples.U2)
           [] (mk_UUID 2) Examples.file_b [32; 10; 9; 160; 8195]%N);
    reflexivity.
Defined.

(** ** Chunks and their metadata *)

(** C3.  Whatever is sent to the vector store for a document: the texts are
    the chunks the splitter made of a text that is not blank, there are as
    many metadata records as chunks, the records are all equal, and each
    holds the source of the message, the parsed object id and the three
    provenance fields of the document. *)
Theorem metadata_matches_chunks env self event data h docs metas :
  In (EvAddTexts docs metas) (snd (process_data env self event data h)) ->
  exists u text,
    uuid_UUID env (Pb.object_id data) = Ok u
    /\ blank text = false
    /\ split_text env (text_splitter self) text = Ok docs
    /\ length metas = length docs
    /\ (forall m m', In m metas -> In m' metas -> m = m')
    /\ Forall (fun m =>
                 md_source m = Pb.source (Pb.metadata event)
                 /\ md_object_id m = u
                 /\ md_originating_object_id m = Pb.originating_object_id data
                 /\ md_originating_object_path m
                    = Pb.originating_object_path data
                 /\ md_originating_object_pdf m
                    = Pb.originating_object_converted_pdf data) metas.
Proof.
  intros Hin.
  destruct (process_data_cases env self event data h)
    as [(e & _ & Heq)|(u & r & d & Hp & Hrun & Heq)]; rewrite Heq in Hin.
  - destruct Hin.
  - apply in_handled in Hin. destruct Hin as [Hin|(e & _ & Hev)];
      [|discriminate Hev].
    assert (Hshape : exists text,
               blank text = false
               /\ split_text env (text_splitter self) text = Ok docs
               /\ metas = repeat (metadata_of event data u) (length docs)).
    { destruct Hrun; simpl in Hin;
        repeat (destruct Hin as [Hin|Hin]; try discriminate Hin);
        try contradiction;
        injection Hin as Hdocs Hmetas; subst; eauto. }
    destruct Hshape as (text & Hb & Hs & Hm). exists u, text.
    repeat split; auto.
    + subst metas. apply repeat_length.
    + intros m m' Hm1 Hm2. subst metas.
      apply repeat_spec in Hm1. apply repeat_spec in Hm2. congruence.
    + subst metas. apply Forall_forall. intros m Hm1.
      apply repeat_spec in Hm1. subst m. simpl. auto.
Qed.

Lemma metadata_matches_chunks_witness :
  exists u text,
    uuid_UUID Examples.env (Pb.object_id (Examples.data_of Examples.U1)) = Ok u
    /\ blank text = false
    /\ split_text Examples.env (text_splitter Examples.service) text
       = Ok [Py.of_string "alpha"; Py.of_string "beta"]
    /\ length [Examples.md1; Examples.md1]
       = length [Py.of_string "alpha"; Py.of_string "beta"]
    /\ (forall m m', In m [Examples.md1; Examples.md1] ->
                     In m' [Examples.md1; Examples.md1] -> m = m')
    /\ Forall (fun m =>
                 md_source m
                 = Pb.source (Pb.metadata (Examples.message_of [Examples.U1]))
                 /\ md_object_id m = u
                 /\ md_originating_object_id m
                    = Pb.originating_object_id (Examples.data_of Examples.U1)
                 /\ md_originating_object_path m
                    = Pb.originating_object_path (Examples.data_of Examples.U1)
                 /\ md_originating_object_pdf m
                    = Pb.originating_object_converted_pdf
                        (Examples.data_of Examples.U1))
              [Examples.md1; Examples.md1].
Proof.
  apply (@metadata_matches_chunks Examples.env Examples.service
           (Examples.message_of [Examples.U1]) (Examples.data_of Examples.U1) []).
  vm_compute. tauto.
Defined.

(** ** One call to the vector store *)

(** The suite calls the vector store once at most. *)
Lemma try_run_add_texts_at_most_once env self md u h r d :
  TryRun env self md u h r d -> count is_add_texts d <= 1.
Proof. intros Hrun. destruct Hrun; unfold count; simpl; lia. Qed.

(** The suite logs no error itself. *)
Lemma try_run_no_error_log env self md u h r d :
  TryRun env self md u h r d -> count is_error_log d = 0.
Proof. intros Hrun. destruct Hrun; reflexivity. Qed.




(** ** Release of the downloaded file *)

Lemma TempFile_eqb_refl file : TempFile_eqb file file = true.
Proof.
  unfold TempFile_eqb. destruct (list_eq_dec N.eq_dec (name file) (name file));
    congruence.
Qed.

Lemma held_after_app held (d d' : Trace) :
  held_after held (d ++ d') = held_after (held_after held d) d'.
Proof.
  revert held. induction d as [|ev d IH]; simpl; intros held.
  - reflexivity.
  - destruct ev; apply IH.
Qed.

(** A run of the suite leaves the set of held handles as it found it. *)
Lemma try_run_balanced env self md u h r d held :
  TryRun env self md u h r d -> held_after held d = held.
Proof.
  intros Hrun. destruct Hrun; simpl; try rewrite TempFile_eqb_refl; reflexivity.
Qed.

(** A run of the suite that got a handle ends by releasing it, and
    acquires and releases nothing else. *)
Lemma try_run_released env self md u h r d file :
  TryRun env self md u h r d ->
  storage_download env (h ++ [EvPrint u]) u = Ok file ->
  exists mid,
    d = EvPrint u :: EvAcquire u file :: mid ++ [EvRelease file]
    /\ count is_acquire mid = 0
    /\ count is_release mid = 0.
Proof.
  intros Hrun Hd. destruct Hrun; same_answers;
    match goal with
    | |- exists mid, ?d = _ /\ _ => exists (removelast (skipn 2 d))
    end;
    repeat split.
Qed.

(** C7.  Once the download of a document has returned a handle, the run of
    the loop body releases that handle exactly once, after acquiring it,
    and acquires nothing else: whatever the later steps do, and whether the
    body returns or an exception leaves it. *)
Theorem download_released env self event data h u file :
  uuid_UUID env (Pb.object_id data) = Ok u ->
  storage_download env (h ++ [EvPrint u]) u = Ok file ->
  let d := snd (process_data env self event data h) in
  (exists mid rest,
      d = EvPrint u :: EvAcquire u file :: mid ++ EvRelease file :: rest
      /\ count is_acquire (mid ++ rest) = 0
      /\ count is_release (mid ++ rest) = 0)
  /\ forall held, held_after held d = held.
Proof.
  intros Hp Hd d. subst d.
  destruct (process_data_cases env self event data h)
    as [(e & Hp' & _)|(u' & r & d & Hp' & Hrun & Heq)]; same_answers.
  rewrite Heq. split.
  - destruct (try_run_released Hrun Hd) as (mid & Hshape & Hacq & Hrel).
    subst d. exists mid.
    assert (Hrest : forall rest,
               count is_acquire rest = 0 -> count is_release rest = 0 ->
               count is_acquire (mid ++ rest) = 0
               /\ count is_release (mid ++ rest) = 0).
    { intros rest H1 H2. rewrite !count_app. lia. }
    destruct r as [[]|e]; simpl.
    + exists []. split; [reflexivity|]. now apply Hrest.
    + destruct (exc_is_Exception e); simpl.
      * exists [EvLog (exception_entry e)].
        split; [now rewrite <- app_assoc|]. now apply Hrest.
      * exists []. split; [reflexivity|]. now apply Hrest.
  - intros held.
    assert (Hd' : held_after held d = held)
      by (eapply try_run_balanced; eassumption).
    clear Hrun. destruct r as [[]|e]; simpl; auto.
    destruct (exc_is_Exception e); simpl; auto.
    now rewrite held_after_app, Hd'.
Qed.

Lemma download_released_witness :
  let d := snd (process_data Examples.env_store_down Examples.service
                  (Examples.message_of [Examples.U1])
                  (Examples.data_of Examples.U1) []) in
  (exists mid rest,
      d = EvPrint (mk_UUID 1) :: EvAcquire (mk_UUID 1) Examples.file_a
            :: mid ++ EvRelease Examples.file_a :: rest
      /\ count is_acquire (mid ++ rest) = 0
      /\ count is_release (mid ++ rest) = 0)
  /\ forall held, held_after held d = held.
Proof.
  apply (@download_released Examples.env_store_down Examples.service
           (Examples.message_of [Examples.U1]) (Examples.data_of Examples.U1)
           [] (mk_UUID 1) Examples.file_a);
    reflexivity.
Defined.

(** ** The object id in the metadata *)

Lemma calls_of_map (d : Trace) : calls_of (map StepCall d) = d.
Proof. induction d as [|ev d IH]; simpl; congruence. Qed.

Lemma no_uuid_step_in_calls (d : Trace) :
  existsb is_uuid_step (map StepCall d) = false.
Proof. induction d as [|ev d IH]; simpl; auto. Qed.

(** The steps of the loop body are the evaluation of [uuid.UUID], then the
    calls of [process_data]. *)
Lemma process_data_steps_calls env self event data h :
  process_data_steps env self event data h
  = (fst (process_data env self event data h),
     StepUUID (Pb.object_id data)
       :: map StepCall (snd (process_data env self event data h))).
Proof.
  unfold process_data_steps, process_data, bind, lift.
  destruct (uuid_UUID env (Pb.object_id data)) as [u|e]; [|reflexivity].
  rewrite app_nil_r.
  destruct (try_except_Exception _ _ h) as [r d]. reflexivity.
Qed.

Lemma repeat_object_id md n u :
  md_object_id md = u ->
  Forall (fun u' => u' = u) (map md_object_id (repeat md n)).
Proof.
  intros Hmd. apply Forall_forall. intros u' Hin.
  apply in_map_iff in Hin. destruct Hin as (m & <- & Hm).
  apply repeat_spec in Hm. now subst m.
Qed.

(** Every object id given to a call of the suite is the id the suite was
    given. *)
Lemma try_run_ids env self md u h r d :
  md_object_id md = u ->
  TryRun env self md u h r d ->
  Forall (fun u' => u' = u) (flat_map ids_used d).
Proof.
  intros Hmd Hrun. apply Forall_flat_map.
  pose proof (fun n => @repeat_object_id md n u Hmd) as Hrep.
  destruct Hrun; repeat constructor; simpl; auto.
Qed.



(** Upper and lower case, with or without hyphens: one [UUID]. *)
Example uuid_of_hex_normalises :
  Examples.uuid_of_hex (Py.of_string "00000000-0000-0000-0000-0000000000AB")
  = Examples.uuid_of_hex (Py.of_string "000000000000000000000000000000ab").
Proof. reflexivity. Qed.

(** ** Failures of one document *)

(** The loop: a malformed object id ends the whole message. *)
Lemma process_message_bad_id_first env self meta data rest h e :
  uuid_UUID env (Pb.object_id data) = Raise e ->
  process_message env self (Pb.mk_FileDataPlaintextMessage meta (data :: rest)) h
  = (Raise e, []).
Proof.
  intros Hp. unfold process_message. simpl. unfold bind.
  now rewrite (process_data_bad_id env self _ data h Hp).
Qed.

(** C1.  A message of two documents, the first with the object id
    [not-a-uuid], the second well formed and present in the store: the
    [ValueError] of [uuid.UUID] leaves [process_message], and the second
    document, which alone is indexed with one call to the vector store, is
    not processed at all. *)
Theorem malformed_object_id_aborts_message :
  process_message Examples.env Examples.service
    (Examples.message_of [Examples.malformed; Examples.U1]) []
  = (Raise (Py.ValueError "badly formed hexadecimal UUID string"), [])
  /\ fst (process_message Examples.env Examples.service
            (Examples.message_of [Examples.U1]) []) = Ok tt
  /\ count is_add_texts
       (snd (process_message Examples.env Examples.service
               (Examples.message_of [Examples.U1]) [])) = 1.
Proof. repeat split. Qed.

(** The context of the entry of the [except] clause holds [module] and
    [message] and no [object_id]; the info entries of the suite hold
    [object_id]. *)
Lemma exception_entry_context e :
  map fst (log_context (exception_entry e)) = ["module"; "message"]
  /\ has_key "object_id" (exception_entry e) = false.
Proof. split; reflexivity. Qed.

Lemma info_entries_context docs start stop u :
  has_key "object_id" (loading_entry docs u) = true
  /\ has_key "object_id" (loaded_entry docs start stop u) = true.
Proof. split; reflexivity. Qed.

(** A document that is not in the store: the failure is contained and
    logged once, and the entry does not name the object. *)
Example not_found_logged_without_object_id :
  process_data Examples.env Examples.service
    (Examples.message_of [Examples.U3]) (Examples.data_of Examples.U3) []
  = (Ok tt, [EvPrint (mk_UUID 3); EvLog (exception_entry Examples.not_found)]).
Proof. reflexivity. Qed.

(** C8.  A document with a well-formed object id whose download raises
    "not found".  The processing fails and the failure is contained: the
    loop body returns normally, the vector store is not called and one
    error entry is logged.  The context of that entry holds [module] and
    [message] and no [object_id], which the claim asks for and which the
    two info entries of the same function do carry: no error entry of the
    run has the object id in its context. *)
Theorem not_found_error_entry_lacks_object_id :
  let run := process_data Examples.env Examples.service
               (Examples.message_of [Examples.U3])
               (Examples.data_of Examples.U3) [] in
  processing_fails Examples.env Examples.service
    (Examples.message_of [Examples.U3]) (Examples.data_of Examples.U3) []
  /\ run = (Ok tt,
            [EvPrint (mk_UUID 3); EvLog (exception_entry Examples.not_found)])
  /\ count is_add_texts (snd run) = 0
  /\ count is_error_log (snd run) = 1
  /\ log_context (exception_entry Examples.not_found)
     = [("module", CtxStr "nlp.services.indexing");
        ("message", CtxStr "exception in processing a plaintext file")]
  /\ count (is_error_log_with "object_id") (snd run) = 0
  /\ has_key "object_id" (loading_entry [] (mk_UUID 3)) = true
  /\ ~ contained_unindexed_logged run.
Proof.
  repeat split.
  - exists Examples.not_found. reflexivity.
  - intros (_ & _ & _ & Hkey). discriminate Hkey.
Qed.

(** A failure of the call to the vector store itself: the failure is
    contained and logged once, and the vector store was called. *)
Lemma failed_upsert_was_called :
  let run := process_data Examples.env_store_down Examples.service
               (Examples.message_of [Examples.U1])
               (Examples.data_of Examples.U1) [] in
  processing_fails Examples.env_store_down Examples.service
    (Examples.message_of [Examples.U1]) (Examples.data_of Examples.U1) []
  /\ fst run = Ok tt
  /\ count is_error_log (snd run) = 1
  /\ count is_add_texts (snd run) = 1
  /\ ~ contained_unindexed_logged run.
Proof.
  repeat split.
  - exists Examples.store_down. reflexivity.
  - intros (_ & Hadd & _). discriminate Hadd.
Qed.

(** What the [except] clause does as written: when a step of the suite of
    the [try] statement raises an exception that derives from [Exception],
    the loop body returns normally and logs one error entry, the last call
    of the run.  The vector store is not called when it is the download
    that raised; in general it is called once at most, and when it was
    called it is its call that raised. *)
Lemma guarded_failure_logged env self event data h u e :
  uuid_UUID env (Pb.object_id data) = Ok u ->
  fst (suite_of env self event data u h) = Raise e ->
  exc_is_Exception e = true ->
  let run := process_data env self event data h in
  fst run = Ok tt
  /\ count is_error_log (snd run) = 1
  /\ (exists d, snd run = d ++ [EvLog (exception_entry e)])
  /\ (forall e', storage_download env (h ++ [EvPrint u]) u = Raise e' ->
                 count is_add_texts (snd run) = 0)
  /\ (count is_add_texts (snd run) = 0
      \/ count is_add_texts (snd run) = 1
         /\ exists h' docs metas,
              In (EvAddTexts docs metas) (snd run)
              /\ aadd_texts env h' docs metas = Raise e).
Proof.
  intros Hp Hraise Hexc run. subst run.
  rewrite (process_data_good_id env self event data h Hp).
  fold (suite_of env self event data u).
  pose proof (process_data_try_run env self (Pb.source (Pb.metadata event)) u
                (Pb.originating_object_id data)
                (Pb.originating_object_path data)
                (Pb.originating_object_converted_pdf data) h) as Hrun.
  simpl in Hrun. fold (suite_of env self event data u) in Hrun.
  destruct (suite_of env self event data u h) as [r d]. simpl in Hraise, Hrun.
  subst r. simpl. rewrite Hexc. simpl.
  split; [reflexivity|]. split; [|split; [|split]].
  - rewrite count_app, (try_run_no_error_log Hrun). reflexivity.
  - exists d. reflexivity.
  - intros e' Hd. rewrite count_app.
    inversion Hrun; subst; same_answers; reflexivity.
  - rewrite count_app. simpl.
    inversion Hrun; subst; try (left; reflexivity).
    right. split; [reflexivity|].
    eexists _, docs, _. split; [|eassumption].
    rewrite in_app_iff. left. simpl. auto 10.
Qed.

(** ** What the [try] statement does contain *)

(** With an object id that parses and collaborators that raise nothing
    outside [Exception], the loop body returns normally, having started on
    the document. *)
Lemma process_data_contained env self event data h :
  raises_only_Exception env ->
  Py.is_ok (uuid_UUID env (Pb.object_id data)) = true ->
  fst (process_data env self event data h) = Ok tt
  /\ count is_print (snd (process_data env self event data h)) = 1.
Proof.
  intros (Hdl & Hop & Hrd & Hsp & Hadd) Hid.
  destruct (process_data_cases env self event data h)
    as [(e & Hp & _)|(u & r & d & Hp & Hrun & Heq)].
  - rewrite Hp in Hid. discriminate Hid.
  - rewrite Heq. clear Heq.
    destruct Hrun; simpl;
      try (split; reflexivity);
      match goal with
      | H : storage_download _ _ _ = Raise ?e |- _ => rewrite (Hdl _ _ _ H)
      | H : builtin_open _ _ _ = Raise ?e |- _ => rewrite (Hop _ _ _ H)
      | H : file_read _ _ _ = Raise ?e |- _ => rewrite (Hrd _ _ _ H)
      | H : split_text _ _ _ = Raise ?e |- _ => rewrite (Hsp _ _ _ H)
      | H : aadd_texts _ _ _ _ = Raise ?e |- _ => rewrite (Hadd _ _ _ _ H)
      end; split; reflexivity.
Qed.

(** X3.  When every object id of a message parses and the collaborators
    raise nothing outside [Exception], [process_message] returns normally
    and has started on every document of the message, whichever of them
    failed. *)
Lemma process_message_contained env self event h :
  raises_only_Exception env ->
  Forall (fun data => Py.is_ok (uuid_UUID env (Pb.object_id data)) = true)
    (Pb.data event) ->
  fst (process_message env self event h) = Ok tt
  /\ count is_print (snd (process_message env self event h))
     = length (Pb.data event).
Proof.
  intros Henv. unfold process_message.
  generalize (Pb.data event) as ds. intros ds Hids. revert h.
  induction Hids as [|data ds Hid _ IH]; intros h; simpl.
  - split; reflexivity.
  - unfold bind.
    destruct (process_data_contained self event data h Henv Hid) as [Hr Hc].
    destruct (process_data env self event data h) as [r d]. simpl in Hr, Hc.
    subst r. destruct (IH (h ++ d)) as [Hr' Hc'].
    destruct (for_each ds (process_data env self event) (h ++ d)) as [r' d'].
    simpl in *. split; [assumption|]. rewrite count_app. lia.
Qed.

(** An exception outside [Exception] is not caught: a cancelled download
    ends the message. *)
Example cancelled_download_escapes :
  process_message Examples.env_cancelled Examples.service
    (Examples.message_of [Examples.U1; Examples.U2]) []
  = (Raise Examples.cancelled, [EvPrint (mk_UUID 1)]).
Proof. reflexivity. Qed.

(** Over a whole message, whatever the collaborators do, every handle that
    was acquired has been released when [process_message] is left. *)
Lemma process_message_balanced env self event h held :
  held_after held (snd (process_message env self event h)) = held.
Proof.
  unfold process_message. generalize (Pb.data event) as ds. intros ds.
  revert h. induction ds as [|data ds IH]; intros h; simpl.
  - reflexivity.
  - unfold bind.
    assert (Hd : held_after held (snd (process_data env self event data h)) = held).
    { destruct (process_data_cases env self event data h)
        as [(e & _ & Heq)|(u & r & d & _ & Hrun & Heq)]; rewrite Heq.
      - reflexivity.
      - pose proof (try_run_balanced held Hrun) as Hb.
        destruct r as [[]|e]; simpl; auto.
        destruct (exc_is_Exception e); simpl; auto.
        now rewrite held_after_app, Hb. }
    destruct (process_data env self event data h) as [[[]|e] d]; simpl in *.
    + specialize (IH (h ++ d)).
      destruct (for_each ds (process_data env self event) (h ++ d)) as [r' d'].
      simpl in *. now rewrite held_after_app, Hd.
    + assumption.
Qed.

(** ** The chunk overlap *)

Section Overlap.

Local Open Scope Z_scope.

Lemma round_half_even_cases num den :
  Py.round_half_even num den = num / den
  \/ (Py.round_half_even num den = num / den + 1 /\ den <= 2 * (num mod den)).
Proof.
  unfold Py.round_half_even.
  destruct (2 * (num mod den) <? den) eqn:H1; [now left|].
  apply Z.ltb_ge in H1.
  destruct (den <? 2 * (num mod den)); [now right|].
  destruct (Z.even (num / den)); [now left|now right].
Qed.

(** With three fractional bits or more, the rounded fifteenth of [n] stays
    below the next integer. *)
Lemma round_fifteenth_scaled n P :
  0 <= n -> 8 <= P ->
  Py.round_half_even (n * P) 15 / P = n / 15.
Proof.
  intros Hn HP.
  destruct (round_half_even_cases (n * P) 15) as [H|[H Hr]]; rewrite H;
    Z.div_mod_to_equations; nia.
Qed.

(** With two fractional bits, it does as long as the remainder is not 14. *)
Lemma round_fifteenth_scaled_4 n :
  15 * 2 ^ 50 <= n < 15 * 2 ^ 50 + 14 ->
  Py.round_half_even (n * 4) 15 / 4 = n / 15.
Proof.
  intros Hn.
  destruct (round_half_even_cases (n * 4) 15) as [H|[H Hr]]; rewrite H;
    Z.div_mod_to_equations; lia.
Qed.

(** [int(n/15)] is the floor of n/15 for every positive [n] below
    15 * 2^50 + 14. *)
Lemma overlap_of_below n :
  0 < n < 15 * 2 ^ 50 + 14 -> overlap_of n = Ok (n / 15).
Proof.
  intros Hn.
  unfold overlap_of, Py.truediv, Py.nearest_float.
  change (15 =? 0) with false. cbv iota.
  change (Z.abs 15) with 15. rewrite (Z.abs_eq n) by lia.
  destruct (n =? 0) eqn:Hz; [apply Z.eqb_eq in Hz; lia|].
  unfold Py.ilog2_ratio. change (Z.log2 15 + 1) with 4.
  change (2 ^ 4) with 16.
  set (L := Z.log2 (n * 16 / 15)).
  assert (Hpos : 0 < n * 16 / 15) by (Z.div_mod_to_equations; lia).
  assert (HL0 : 0 <= L) by apply Z.log2_nonneg.
  assert (HL : L < 55).
  { apply Z.log2_lt_pow2; [assumption|].
    change (2 ^ 55) with 36028797018963968.
    change (2 ^ 50) with 1125899906842624 in Hn.
    Z.div_mod_to_equations; lia. }
  rewrite (Z.max_l (L - 4 - 52) (-1074)) by lia.
  rewrite (Z.max_r 0 (- (L - 4 - 52))) by lia.
  rewrite (Z.max_l 0 (L - 4 - 52)) by lia.
  change (2 ^ 0) with 1. rewrite Z.mul_1_r.
  replace (971 <? L - 4 - 52) with false by (symmetry; apply Z.ltb_ge; lia).
  replace (L - 4 - 52 =? 971) with false by (symmetry; apply Z.eqb_neq; lia).
  cbv [orb andb Py.map_result Py.int_of_float Py.f_exp Py.f_man Py.f_neg].
  replace (0 <=? L - 4 - 52) with false by (symmetry; apply Z.leb_gt; lia).
  replace (n <? 0) with false by (symmetry; apply Z.ltb_ge; lia).
  change (15 <? 0) with false. cbv [xorb]. f_equal.
  replace (- (L - 4 - 52)) with (56 - L) by lia.
  destruct (Z.eq_dec L 54) as [HL54|HL54].
  - rewrite HL54. change (2 ^ (56 - 54)) with 4.
    apply round_fifteenth_scaled_4.
    assert (H54 : 2 ^ 54 <= n * 16 / 15).
    { apply Z.log2_le_pow2; [assumption|]. unfold L in HL54. lia. }
    change (2 ^ 54) with 18014398509481984 in H54.
    change (2 ^ 50) with 1125899906842624 in *.
    split; [|lia]. Z.div_mod_to_equations; lia.
  - apply round_fifteenth_scaled; [lia|].
    assert (H3 : 2 ^ 3 <= 2 ^ (56 - L)) by (apply Z.pow_le_mono_r; lia).
    change (2 ^ 3) with 8 in H3. exact H3.
Qed.

(** C5, as stated, fails at the chunk size 15 * 2^50 + 14: the quotient
    2^50 + 14/15 rounds to the float 2^50 + 1, and the overlap
    [__init__] hands to the splitter is one above the floor 2^50. *)
Lemma overlap_above_floor_at_large_size :
  let size := 15 * 2 ^ 50 + 14 in
  let cfg := mk_NLPSettings size "model" "url" "user" "secret" "index" in
  size / 15 = 2 ^ 50
  /\ overlap_of size = Ok (2 ^ 50 + 1)
  /\ exists self, fst (init cfg []) = Ok self
       /\ chunk_overlap (text_splitter self) = size / 15 + 1.
Proof.
  split; [|split].
  - vm_compute. reflexivity.
  - vm_compute. reflexivity.
  - eexists. split; vm_compute; reflexivity.
Qed.

(** C5, amended.  For every positive [text_chunk_size] below
    15 * 2^50 + 14, [__init__] builds the splitter with that chunk size
    and with the overlap floor(text_chunk_size / 15), and
    0 <= overlap < chunk size. *)
Theorem overlap_is_floor_fifteenth cfg h :
  0 < text_chunk_size cfg < 15 * 2 ^ 50 + 14 ->
  exists self,
    fst (init cfg h) = Ok self
    /\ encoding_name (text_splitter self) = "cl100k_base"%string
    /\ chunk_size (text_splitter self) = text_chunk_size cfg
    /\ chunk_overlap (text_splitter self) = text_chunk_size cfg / 15
    /\ 0 <= chunk_overlap (text_splitter self) < chunk_size (text_splitter self).
Proof.
  intros Hn. unfold init, bind, lift, ainfo, emit, ret.
  rewrite (overlap_of_below Hn). simpl.
  eexists. split; [reflexivity|]. simpl. repeat split.
  - apply Z.div_pos; lia.
  - apply Z.div_lt_upper_bound; lia.
Qed.

Lemma overlap_is_floor_fifteenth_witness :
  exists self,
    fst (init Examples.settings []) = Ok self
    /\ encoding_name (text_splitter self) = "cl100k_base"%string
    /\ chunk_size (text_splitter self) = 500
    /\ chunk_overlap (text_splitter self) = 500 / 15
    /\ 0 <= chunk_overlap (text_splitter self) < chunk_size (text_splitter self).
Proof.
  apply (@overlap_is_floor_fifteenth Examples.settings []).
  vm_compute. split; reflexivity.
Defined.

(** At the configured size 500 the overlap is 33. *)
Example overlap_500 : overlap_of 500 = Ok 33.
Proof. reflexivity. Qed.

(** A size too large for a float: [__init__] raises [OverflowError]. *)
Example init_overflows :
  Py.is_ok (overlap_of (15 * 2 ^ 1030)) = false.
Proof. vm_compute. reflexivity. Qed.

End Overlap.

(* ================================================================== *)
(** * Whole messages *)
(* ================================================================== *)

(** ** The loop *)

(** The loop over two lists in a row is the loop over the first, then,
    when that returns, the loop over the second. *)
Lemma for_each_app {A} (xs ys : list A) (body : A -> M unit) h :
  for_each (xs ++ ys) body h
  = (for_each xs body ;; for_each ys body) h.
Proof.
  revert h. induction xs as [|x xs IH]; intros h; simpl.
  - unfold bind, ret. norm_hist. now destruct (for_each ys body h).
  - unfold bind in *. destruct (body x h) as [[[]|e] d]; [|reflexivity].
    rewrite IH.
    destruct (for_each xs body (h ++ d)) as [[[]|e] d1]; norm_hist.
    + destruct (for_each ys body (h ++ d ++ d1)) as [r d2]. norm_hist.
      reflexivity.
    + reflexivity.
Qed.

(** A property of traces that holds of the empty trace, of the run of the
    loop body on each element, and of two traces in a row, holds of the
    run of the loop. *)
Lemma for_each_trace_ind {A} (P : Trace -> Prop) (xs : list A)
    (body : A -> M unit) :
  P [] ->
  (forall a b, P a -> P b -> P (a ++ b)) ->
  (forall x h, In x xs -> P (snd (body x h))) ->
  forall h, P (snd (for_each xs body h)).
Proof.
  intros Hnil Happ. induction xs as [|x xs IH]; intros Hbody h; simpl.
  - exact Hnil.
  - unfold bind. pose proof (Hbody x h (or_introl eq_refl)) as Hx.
    destruct (body x h) as [[[]|e] d]; simpl in *; [|exact Hx].
    assert (Hxs : P (snd (for_each xs body (h ++ d))))
      by (apply IH; intros; apply Hbody; now right).
    destruct (for_each xs body (h ++ d)) as [r d']. simpl in *. auto.
Qed.

(** X1.  A malformed object id anywhere in a message: when the documents
    before it have been processed and the loop has come to it, the
    exception of [uuid.UUID] leaves [process_message]; the calls made are
    those made for the documents before, and the documents after it are
    not touched. *)
Theorem malformed_object_id_drops_the_rest env self meta before data after h e :
  fst (process_message env self
         (Pb.mk_FileDataPlaintextMessage meta before) h) = Ok tt ->
  uuid_UUID env (Pb.object_id data) = Raise e ->
  process_message env self
    (Pb.mk_FileDataPlaintextMessage meta (before ++ data :: after)) h
  = (Raise e,
     snd (process_message env self
            (Pb.mk_FileDataPlaintextMessage meta before) h)).
Proof.
  unfold process_message. simpl. intros Hbefore Hp.
  rewrite for_each_app. unfold bind.
  change (process_data env self
            (Pb.mk_FileDataPlaintextMessage meta (before ++ data :: after)))
    with (process_data env self (Pb.mk_FileDataPlaintextMessage meta before)).
  destruct (for_each before _ h) as [r d]. simpl in Hbefore. subst r. simpl.
  unfold bind.
  rewrite (process_data_bad_id env self _ data (h ++ d) Hp).
  now rewrite app_nil_r.
Qed.

Lemma malformed_object_id_drops_the_rest_witness :
  process_message Examples.env Examples.service
    (Examples.message_of [Examples.U1; Examples.malformed; Examples.U2]) []
  = (Raise (Py.ValueError "badly formed hexadecimal UUID string"),
     snd (process_message Examples.env Examples.service
            (Examples.message_of [Examples.U1]) [])).
Proof.
  apply (@malformed_object_id_drops_the_rest Examples.env Examples.service
           (Pb.mk_Metadata (Py.of_string "web"))
           [Examples.data_of Examples.U1] (Examples.data_of Examples.malformed)
           [Examples.data_of Examples.U2] []);
    reflexivity.
Defined.

(** X2.  An exception of the suite that does not derive from [Exception]
    (a cancellation, a keyboard interrupt) is neither caught nor logged:
    it leaves [process_message] with the calls the suite had made, and the
    documents that follow are not processed. *)
Theorem base_exception_escapes env self meta data rest h u e :
  let event := Pb.mk_FileDataPlaintextMessage meta (data :: rest) in
  uuid_UUID env (Pb.object_id data) = Ok u ->
  fst (suite_of env self event data u h) = Raise e ->
  exc_is_Exception e = false ->
  process_message env self event h
  = (Raise e, snd (suite_of env self event data u h))
  /\ count is_error_log (snd (process_message env self event h)) = 0.
Proof.
  intros event Hp Hraise Hexc.
  assert (Hrun : process_message env self event h
                 = (Raise e, snd (suite_of env self event data u h))).
  { unfold process_message. simpl. unfold bind.
    rewrite (process_data_good_id env self event data h Hp).
    fold (suite_of env self event data u).
    destruct (suite_of env self event data u h) as [r d]. simpl in *.
    subst r. simpl. now rewrite Hexc. }
  split; [exact Hrun|]. rewrite Hrun. simpl.
  pose proof (process_data_try_run env self (Pb.source meta) u
                (Pb.originating_object_id data)
                (Pb.originating_object_path data)
                (Pb.originating_object_converted_pdf data) h) as Htry.
  simpl in Htry. exact (try_run_no_error_log Htry).
Qed.

Lemma base_exception_escapes_witness :
  let event := Examples.message_of [Examples.U1; Examples.U2] in
  process_message Examples.env_cancelled Examples.service event []
  = (Raise Examples.cancelled,
     snd (suite_of Examples.env_cancelled Examples.service event
            (Examples.data_of Examples.U1) (mk_UUID 1) []))
  /\ count is_error_log
       (snd (process_message Examples.env_cancelled Examples.service event []))
     = 0.
Proof.
  apply (@base_exception_escapes Examples.env_cancelled Examples.service
           (Pb.mk_Metadata (Py.of_string "web")) (Examples.data_of Examples.U1)
           [Examples.data_of Examples.U2] [] (mk_UUID 1) Examples.cancelled);
    reflexivity.
Defined.

Lemma examples_raise_only_Exception : raises_only_Exception Examples.env.
Proof.
  repeat split; simpl; try discriminate.
  - intros h u e. unfold Examples.download.
    destruct (uuid_int u =? 1)%N; [discriminate|].
    destruct (uuid_int u =? 2)%N; [discriminate|].
    intros H. injection H as <-. reflexivity.
  - intros h path e. unfold Examples.read.
    destruct (list_eq_dec N.eq_dec path (name Examples.file_a)); discriminate.
Qed.

Lemma process_message_contained_witness :
  fst (process_message Examples.env Examples.service
         (Examples.message_of [Examples.U1; Examples.U2; Examples.U3]) [])
  = Ok tt
  /\ count is_print
       (snd (process_message Examples.env Examples.service
               (Examples.message_of [Examples.U1; Examples.U2; Examples.U3]) []))
     = length (Pb.data
                 (Examples.message_of [Examples.U1; Examples.U2; Examples.U3])).
Proof.
  apply (@process_message_contained Examples.env Examples.service
           (Examples.message_of [Examples.U1; Examples.U2; Examples.U3]) []).
  - exact examples_raise_only_Exception.
  - repeat constructor.
Defined.

(** ** The two [with] statements *)

Lemma str_eqb_refl (s : Py.str) : str_eqb s s = true.
Proof. unfold str_eqb. destruct (list_eq_dec N.eq_dec s s); congruence. Qed.

Lemma scoped_app stack (a b : Trace) :
  scoped stack (a ++ b)
  = match scoped stack a with
    | Some stack' => scoped stack' b
    | None => None
    end.
Proof.
  revert stack. induction a as [|ev a IH]; intros stack; simpl.
  - reflexivity.
  - destruct ev; try apply IH.
    + destruct stack as [|[g|p] stack']; try reflexivity.
      destruct (TempFile_eqb file g); [apply IH|reflexivity].
    + destruct stack as [|[g|p] stack']; try reflexivity.
      destruct (str_eqb path (name g)); [apply IH|reflexivity].
    + destruct stack as [|[g|p] stack']; try reflexivity.
      destruct (str_eqb path p); [apply IH|reflexivity].
    + destruct stack as [|[g|p] [|[g'|p'] stack']]; try reflexivity. apply IH.
    + destruct stack as [|[g|p] [|[g'|p'] stack']]; try reflexivity. apply IH.
Qed.

Lemma try_run_scoped env self md u h r d stack :
  TryRun env self md u h r d -> scoped stack d = Some stack.
Proof.
  intros Hrun. destruct Hrun; simpl;
    repeat (rewrite ?str_eqb_refl, ?TempFile_eqb_refl; simpl); reflexivity.
Qed.

Lemma process_data_scoped env self event data h stack :
  scoped stack (snd (process_data env self event data h)) = Some stack.
Proof.
  destruct (process_data_cases env self event data h)
    as [(e & _ & Heq)|(u & r & d & _ & Hrun & Heq)]; rewrite Heq.
  - reflexivity.
  - pose proof (try_run_scoped stack Hrun) as Hd.
    destruct r as [[]|e]; simpl; auto.
    destruct (exc_is_Exception e); simpl; auto.
    rewrite scoped_app, Hd. reflexivity.
Qed.

(** X4.  In every run of [process_message], however it ends, the calls are
    bracketed as the two [with] statements are nested: a file is opened
    only on the name of the handle just acquired, it is closed before that
    handle is released, the splitter and the vector store are called only
    while the file is open under its handle, and at the end everything
    acquired or opened during the run has been closed and released. *)
Theorem process_message_scoped env self event h stack :
  scoped stack (snd (process_message env self event h)) = Some stack.
Proof.
  unfold process_message. revert stack.
  apply (for_each_trace_ind
           (fun d => forall stack, scoped stack d = Some stack)).
  - reflexivity.
  - intros a b Ha Hb stack. now rewrite scoped_app, Ha.
  - intros data h' _ stack. apply process_data_scoped.
Qed.

(** ** Stages and log entries *)

Lemma count_handled p r d :
  (forall e, p (EvLog (exception_entry e)) = false) ->
  count p (snd (handled (r, d))) = count p d.
Proof.
  intros Hp. destruct r as [[]|e]; simpl; auto.
  destruct (exc_is_Exception e); simpl; auto.
  rewrite count_app. unfold count at 2. simpl. rewrite Hp. simpl. lia.
Qed.

Lemma for_each_count_le {A} p (xs : list A) (body : A -> M unit) :
  (forall x h, count p (snd (body x h)) <= 1) ->
  forall h, count p (snd (for_each xs body h)) <= length xs.
Proof.
  intros Hbody. induction xs as [|x xs IH]; intros h; simpl.
  - unfold count. simpl. lia.
  - unfold bind. pose proof (Hbody x h) as Hx.
    destruct (body x h) as [[[]|e] d]; simpl in *; [|lia].
    specialize (IH (h ++ d)).
    destruct (for_each xs body (h ++ d)) as [r d']. simpl in *.
    rewrite count_app. lia.
Qed.

(** X5.  Over a whole message, each stage is reached by no more documents
    than the stage before it: the calls to the vector store are no more
    than the calls to the splitter, those no more than the files opened,
    those no more than the downloads that returned, those no more than the
    documents started on, and those no more than the documents of the
    message. *)
Theorem stages_narrow env self event h :
  let tr := snd (process_message env self event h) in
  count is_add_texts tr <= count is_split_text tr
  /\ count is_split_text tr <= count is_open tr
  /\ count is_open tr <= count is_acquire tr
  /\ count is_acquire tr <= count is_print tr
  /\ count is_print tr <= length (Pb.data event).
Proof.
  assert (Hdata : forall data h',
             let d := snd (process_data env self event data h') in
             (count is_add_texts d <= count is_split_text d
              /\ count is_split_text d <= count is_open d
              /\ count is_open d <= count is_acquire d
              /\ count is_acquire d <= count is_print d)
             /\ count is_print d <= 1).
  { intros data h' d. subst d.
    destruct (process_data_cases env self event data h')
      as [(e & _ & Heq)|(u & r & d & _ & Hrun & Heq)]; rewrite Heq.
    - unfold count. simpl. lia.
    - rewrite !count_handled by reflexivity.
      destruct Hrun; unfold count; simpl; lia. }
  intros tr. subst tr. unfold process_message.
  repeat rewrite <- and_assoc. split.
  - repeat rewrite and_assoc.
    apply (for_each_trace_ind
             (fun d => count is_add_texts d <= count is_split_text d
                       /\ count is_split_text d <= count is_open d
                       /\ count is_open d <= count is_acquire d
                       /\ count is_acquire d <= count is_print d)).
    + unfold count. simpl. lia.
    + intros a b Ha Hb. rewrite !count_app. lia.
    + intros data h' _. apply Hdata.
  - apply for_each_count_le. intros data h'. apply Hdata.
Qed.

(** X6.  Over a whole message, every call to the vector store is announced
    by one "Loading ... documents" entry and no such entry is logged
    without the call; no more "documents loaded" entries are logged than
    calls made; and the documents reported loaded and the errors logged,
    together, are no more than the documents started on: no document is
    reported both loaded and failed. *)
Theorem log_entries_account_for_calls env self event h :
  let tr := snd (process_message env self event h) in
  count is_loading_log tr = count is_add_texts tr
  /\ count is_loaded_log tr <= count is_add_texts tr
  /\ count is_loaded_log tr + count is_error_log tr <= count is_print tr.
Proof.
  intros tr. subst tr. unfold process_message.
  apply (for_each_trace_ind
           (fun d => count is_loading_log d = count is_add_texts d
                     /\ count is_loaded_log d <= count is_add_texts d
                     /\ count is_loaded_log d + count is_error_log d
                        <= count is_print d)).
  - unfold count. simpl. lia.
  - intros a b Ha Hb. rewrite !count_app. lia.
  - intros data h' _.
    destruct (process_data_cases env self event data h')
      as [(e & _ & Heq)|(u & r & d & _ & Hrun & Heq)]; rewrite Heq.
    + unfold count. simpl. lia.
    + rewrite !(@count_handled is_loading_log), !(@count_handled is_add_texts),
        !(@count_handled is_loaded_log), !(@count_handled is_print)
        by reflexivity.
      destruct Hrun; simpl;
        try (destruct (exc_is_Exception e)); unfold count; simpl; lia.
Qed.

(** The reading of [scoped] refuses a release that comes before the close,
    and a call to the vector store once the file is closed. *)
Example scoped_refuses :
  scoped [] [EvAcquire (mk_UUID 1) Examples.file_a;
             EvOpen (name Examples.file_a);
             EvRelease Examples.file_a; EvClose (name Examples.file_a)] = None
  /\ scoped [] [EvAcquire (mk_UUID 1) Examples.file_a;
                EvOpen (name Examples.file_a); EvClose (name Examples.file_a);
                EvAddTexts [] []; EvRelease Examples.file_a] = None.
Proof. split; reflexivity. Qed.

Lemma in_handled_log r d entry :
  In (EvLog entry) (snd (handled (r, d))) ->
  In (EvLog entry) d
  \/ exists e, r = Raise e /\ exc_is_Exception e = true
               /\ entry = exception_entry e.
Proof.
  destruct r as [[]|e]; simpl; auto.
  destruct (exc_is_Exception e) eqn:He; simpl; auto.
  rewrite in_app_iff. simpl. intros [H|[H|[]]]; auto.
  injection H as <-. eauto.
Qed.

(** X7.  Every entry logged while a message is processed is of one of two
    kinds.  An error entry holds an exception that derives from
    [Exception], and its context is the module and the fixed message: it
    does not name the document.  An info entry is a "Loading" or a
    "loaded" entry, and its context is the module and the parsed object id
    of a document of the message. *)
Theorem log_entries_context env self event h entry :
  In (EvLog entry) (snd (process_message env self event h)) ->
  match log_level entry with
  | Error =>
      (exists e, log_event entry = ExceptionEvent e
                 /\ exc_is_Exception e = true)
      /\ log_context entry
         = [("module", CtxStr "nlp.services.indexing");
            ("message", CtxStr "exception in processing a plaintext file")]
  | Info =>
      (exists data u,
          In data (Pb.data event)
          /\ uuid_UUID env (Pb.object_id data) = Ok u
          /\ log_context entry
             = [("module", CtxStr "nlp.services.indexing");
                ("object_id", CtxUUID u)])
      /\ (exists n, log_event entry = LoadingDocuments n
                    \/ exists start stop,
                         log_event entry = DocumentsLoaded n start stop)
  end.
Proof.
  unfold process_message. revert entry.
  apply (for_each_trace_ind
           (fun d => forall entry, In (EvLog entry) d ->
              match log_level entry with
              | Error =>
                  (exists e, log_event entry = ExceptionEvent e
                             /\ exc_is_Exception e = true)
                  /\ log_context entry
                     = [("module", CtxStr "nlp.services.indexing");
                        ("message",
                         CtxStr "exception in processing a plaintext file")]
              | Info =>
                  (exists data u,
                      In data (Pb.data event)
                      /\ uuid_UUID env (Pb.object_id data) = Ok u
                      /\ log_context entry
                         = [("module", CtxStr "nlp.services.indexing");
                            ("object_id", CtxUUID u)])
                  /\ (exists n, log_event entry = LoadingDocuments n
                                \/ exists start stop,
                                     log_event entry
                                     = DocumentsLoaded n start stop)
              end)).
  - intros entry [].
  - intros a b Ha Hb entry Hin. apply in_app_iff in Hin.
    destruct Hin as [Hin|Hin]; [exact (Ha entry Hin)|exact (Hb entry Hin)].
  - intros data h' Hdata entry Hin.
    destruct (process_data_cases env self event data h')
      as [(e & _ & Heq)|(u & r & d & Hp & Hrun & Heq)]; rewrite Heq in Hin.
    + destruct Hin.
    + apply in_handled_log in Hin.
      destruct Hin as [Hin|(e & _ & He & ->)].
      * destruct Hrun; simpl in Hin;
          repeat (destruct Hin as [Hin|Hin]; try discriminate Hin);
          try contradiction;
          injection Hin as <-; simpl; (split; [now eauto|]);
          first [ now (eexists; left; reflexivity)
                | now (eexists; right; eexists; eexists; reflexivity) ].
      * simpl. split; [eauto|reflexivity].
Qed.

Lemma log_entries_context_witness :
  (exists e, log_event (exception_entry Examples.not_found) = ExceptionEvent e
             /\ exc_is_Exception e = true)
  /\ log_context (exception_entry Examples.not_found)
     = [("module", CtxStr "nlp.services.indexing");
        ("message", CtxStr "exception in processing a plaintext file")].
Proof.
  apply (@log_entries_context Examples.env Examples.service
           (Examples.message_of [Examples.U1; Examples.U3]) []
           (exception_entry Examples.not_found)).
  vm_compute. tauto.
Defined.

(** ** The order of the documents *)

Lemma printed_app (a b : Trace) : printed (a ++ b) = printed a ++ printed b.
Proof.
  induction a as [|ev a IH]; simpl; [reflexivity|].
  destruct ev; simpl; now rewrite ?IH.
Qed.

Lemma process_data_printed env self event data h u :
  uuid_UUID env (Pb.object_id data) = Ok u ->
  printed (snd (process_data env self event data h)) = [u].
Proof.
  intros Hp.
  destruct (process_data_cases env self event data h)
    as [(e & Hp' & _)|(u' & r & d & Hp' & Hrun & Heq)]; same_answers.
  rewrite Heq.
  assert (Hd : printed d = [u]) by (destruct Hrun; reflexivity).
  destruct r as [[]|e]; simpl; auto.
  destruct (exc_is_Exception e); simpl; auto.
  rewrite printed_app, Hd. reflexivity.
Qed.

(** X8.  The documents of a message are started on in the order of the
    message, none twice and none skipped: the object ids printed are the
    ids parsed from the first documents of the message, in order; and when
    [process_message] returns normally they are the ids of all of them. *)
Theorem documents_started_in_order env self event h :
  let run := process_message env self event h in
  (exists rest, parsed_prefix env (Pb.data event) = printed (snd run) ++ rest)
  /\ (fst run = Ok tt ->
      printed (snd run) = parsed_prefix env (Pb.data event)
      /\ length (printed (snd run)) = length (Pb.data event)).
Proof.
  unfold process_message. generalize (Pb.data event) as ds. intros ds.
  revert h. induction ds as [|data ds IH]; intros h; simpl.
  - split; [exists []; reflexivity|]. intros _. split; reflexivity.
  - unfold bind.
    destruct (uuid_UUID env (Pb.object_id data)) as [u|e] eqn:Hp.
    + pose proof (@process_data_printed env self event data h u Hp) as Hu.
      destruct (process_data env self event data h) as [[[]|e] d];
        simpl in *.
      * specialize (IH (h ++ d)).
        destruct (for_each ds (process_data env self event) (h ++ d))
          as [r d']. simpl in *.
        rewrite printed_app, Hu. simpl.
        destruct IH as [(rest & Hrest) Hok]. split.
        -- exists rest. now rewrite Hrest.
        -- intros Hr. destruct (Hok Hr) as [H1 H2]. split; congruence.
      * rewrite Hu. split; [exists (parsed_prefix env ds); reflexivity|].
        discriminate.
    + rewrite (process_data_bad_id env self event data h Hp). simpl.
      split; [exists []; reflexivity|]. discriminate.
Qed.

(** ** A document that is indexed *)

(** X9.  A document whose text is retrieved, is not blank, is split and is
    accepted by the vector store: the loop body returns normally, and its
    calls are, in this order, the print, the download, the open, the
    splitter on the text as it was read (leading and trailing whitespace
    included), the "Loading" entry, the one call to the vector store, the
    "loaded" entry, the close and the release.  The two clock readings of
    the "loaded" entry are taken just before and just after the call to
    the vector store. *)
Theorem indexed_document_trace env self event data h u file text docs :
  let metadata := repeat (metadata_of event data u) (length docs) in
  let before_call :=
    [EvPrint u; EvAcquire u file; EvOpen (name file); EvSplitText text;
     EvLog (loading_entry docs u)] in
  let called := before_call ++ [EvAddTexts docs metadata] in
  uuid_UUID env (Pb.object_id data) = Ok u ->
  storage_download env (h ++ [EvPrint u]) u = Ok file ->
  builtin_open env (h ++ [EvPrint u; EvAcquire u file]) (name file) = Ok tt ->
  file_read env (h ++ [EvPrint u; EvAcquire u file; EvOpen (name file)])
    (name file) = Ok text ->
  blank text = false ->
  split_text env (text_splitter self) text = Ok docs ->
  aadd_texts env (h ++ called) docs metadata = Ok tt ->
  process_data env self event data h
  = (Ok tt,
     called
     ++ [EvLog (loaded_entry docs (time_time env (h ++ before_call))
                  (time_time env (h ++ called)) u);
         EvClose (name file); EvRelease file]).
Proof.
  intros metadata before_call called Hp Hd Ho Hr Hb Hs Ha.
  subst metadata before_call called. simpl in Ha.
  destruct (process_data_cases env self event data h)
    as [(e & Hp' & _)|(u' & r & d & Hp' & Hrun & Heq)]; same_answers.
  rewrite Heq. destruct Hrun; same_answers; reflexivity.
Qed.

Lemma indexed_document_trace_witness :
  process_data Examples.env Examples.service
    (Examples.message_of [Examples.U1]) (Examples.data_of Examples.U1) []
  = (Ok tt,
     ([EvPrint (mk_UUID 1); EvAcquire (mk_UUID 1) Examples.file_a;
       EvOpen (name Examples.file_a); EvSplitText (Py.of_string "alpha beta");
       EvLog (loading_entry [Py.of_string "alpha"; Py.of_string "beta"]
                (mk_UUID 1))]
      ++ [EvAddTexts [Py.of_string "alpha"; Py.of_string "beta"]
            (repeat (metadata_of (Examples.message_of [Examples.U1])
                       (Examples.data_of Examples.U1) (mk_UUID 1)) 2)])
     ++ [EvLog (loaded_entry [Py.of_string "alpha"; Py.of_string "beta"]
                  Examples.now Examples.now (mk_UUID 1));
         EvClose (name Examples.file_a); EvRelease Examples.file_a]).
Proof.
  apply (@indexed_document_trace Examples.env Examples.service
           (Examples.message_of [Examples.U1]) (Examples.data_of Examples.U1)
           [] (mk_UUID 1) Examples.file_a (Py.of_string "alpha beta")
           [Py.of_string "alpha"; Py.of_string "beta"]);
    reflexivity.
Defined.

(** ** Batches and redelivery *)

(** X13.  One message holding the documents [xs] and then [ys] is
    processed as a message holding [xs] followed, when that returns
    normally, by a message of the same source holding [ys]: the same
    calls, the same outcome. *)
Theorem process_message_split env self meta xs ys h :
  process_message env self (Pb.mk_FileDataPlaintextMessage meta (xs ++ ys)) h
  = (process_message env self (Pb.mk_FileDataPlaintextMessage meta xs) ;;
     process_message env self (Pb.mk_FileDataPlaintextMessage meta ys)) h.
Proof.
  unfold process_message. simpl. now rewrite for_each_app.
Qed.

Section Redelivery.

Variable env : Collaborators.
Variable self : IndexingService.
Hypothesis Henv : ignores_history env.

Lemma process_data_try_ignores_history source u oid opath opdf h h' :
  process_data_try env self source u oid opath opdf h
  = process_data_try env self source u oid opath opdf h'.
Proof.
  destruct Henv as (Hdl & Hop & Hrd & Hadd & Htime).
  unfold process_data_try, with_, bind, call, lift, emit, ret, ainfo. simpl.
  rewrite (Hdl (h ++ [EvPrint u]) []), (Hdl (h' ++ [EvPrint u]) []).
  destruct (storage_download env [] u) as [file|e]; [|reflexivity].
  simpl.
  rewrite (Hop ((h ++ [EvPrint u]) ++ [EvAcquire u file]) []),
    (Hop ((h' ++ [EvPrint u]) ++ [EvAcquire u file]) []).
  destruct (builtin_open env [] (name file)) as [[]|e]; [|reflexivity].
  simpl.
  rewrite (Hrd (((h ++ [EvPrint u]) ++ [EvAcquire u file])
                  ++ [EvOpen (name file)]) []),
    (Hrd (((h' ++ [EvPrint u]) ++ [EvAcquire u file])
            ++ [EvOpen (name file)]) []).
  destruct (file_read env [] (name file)) as [text|e]; [|reflexivity].
  simpl. destruct (Py.truthy (Py.strip text)); [|reflexivity].
  destruct (split_text env (text_splitter self) text) as [docs|e];
    [|reflexivity].
  simpl.
  repeat match goal with
  | |- context [aadd_texts env (?a ++ ?b) ?d ?m] =>
      rewrite (Hadd (a ++ b) [] d m)
  end.
  destruct (aadd_texts env [] docs _) as [[]|e]; [|reflexivity].
  simpl.
  repeat match goal with
  | |- context [time_time env (?a ++ ?b)] => rewrite (Htime (a ++ b) [])
  end.
  reflexivity.
Qed.

Lemma process_data_ignores_history event data h h' :
  process_data env self event data h = process_data env self event data h'.
Proof.
  unfold process_data, bind, lift, try_except_Exception.
  destruct (uuid_UUID env (Pb.object_id data)) as [u|e]; [|reflexivity].
  rewrite (process_data_try_ignores_history _ u _ _ _ (h ++ []) (h' ++ [])).
  destruct (process_data_try _ _ _ _ _ _ _ (h' ++ [])) as [[[]|e] d];
    [reflexivity|].
  destruct (exc_is_Exception e); reflexivity.
Qed.

Lemma process_message_ignores_history event h h' :
  process_message env self event h = process_message env self event h'.
Proof.
  unfold process_message. generalize (Pb.data event) as ds. intros ds.
  revert h h'. induction ds as [|data ds IH]; intros h h'; simpl.
  - reflexivity.
  - unfold bind. rewrite (process_data_ignores_history event data h h').
    destruct (process_data env self event data h') as [[[]|e] d];
      [|reflexivity].
    now rewrite (IH (h ++ d) (h' ++ d)).
Qed.


End Redelivery.

Lemma examples_ignore_history : ignores_history Examples.env.
Proof. repeat split. Qed.


(* ================================================================== *)
(** * The chunk overlap at every size *)
(* ================================================================== *)

Section OverlapBounds.

Local Open Scope Z_scope.

Lemma round_half_even_bounds num den :
  0 <= num -> 0 < den ->
  num / den <= Py.round_half_even num den <= num / den + 1.
Proof.
  intros Hn Hd.
  destruct (round_half_even_cases num den) as [H|[H _]]; rewrite H; lia.
Qed.

(** The exponent [nearest_float] chooses for n/15, and what it says of
    [n]. *)
Lemma ilog2_fifteenth n :
  0 < n ->
  let L := Z.log2 (n * 16 / 15) in
  Py.ilog2_ratio n 15 = L - 4 /\ 0 <= L /\ 15 * 2 ^ L <= 16 * n.
Proof.
  intros Hn L. unfold Py.ilog2_ratio. change (Z.log2 15 + 1) with 4.
  change (2 ^ 4) with 16. fold L.
  assert (Hpos : 0 < n * 16 / 15) by (Z.div_mod_to_equations; lia).
  destruct (Z.log2_spec _ Hpos) as [Hlo _]. fold L in Hlo.
  repeat split; [apply Z.log2_nonneg|].
  Z.div_mod_to_equations. lia.
Qed.

(** X10.  Whatever the positive chunk size, when [int(chunk_size/15)]
    yields a value at all it is an overlap from 0 up to, and not
    including, the chunk size: also at the sizes where the float quotient
    is not the floor any more. *)
Theorem overlap_below_chunk_size n v :
  0 < n -> overlap_of n = Ok v -> 0 <= v < n.
Proof.
  intros Hn. unfold overlap_of, Py.truediv, Py.nearest_float.
  change (15 =? 0) with false. cbv iota.
  change (Z.abs 15) with 15. rewrite (Z.abs_eq n) by lia.
  destruct (n =? 0) eqn:Hz; [apply Z.eqb_eq in Hz; lia|].
  destruct (ilog2_fifteenth Hn) as (-> & HL0 & HL).
  set (L := Z.log2 (n * 16 / 15)) in *.
  rewrite (Z.max_l (L - 4 - 52) (-1074)) by lia.
  replace (n <? 0) with false by (symmetry; apply Z.ltb_ge; lia).
  change (15 <? 0) with false.
  destruct (Z_le_gt_dec (L - 4 - 52) 0) as [Hq|Hq].
  - (* the quantum is 1 or a fraction *)
    rewrite (Z.max_r 0 (- (L - 4 - 52))) by lia.
    rewrite (Z.max_l 0 (L - 4 - 52)) by lia.
    change (2 ^ 0) with 1. rewrite Z.mul_1_r.
    replace (971 <? L - 4 - 52) with false by (symmetry; apply Z.ltb_ge; lia).
    replace (L - 4 - 52 =? 971) with false by (symmetry; apply Z.eqb_neq; lia).
    cbv [orb andb Py.map_result Py.int_of_float Py.f_exp Py.f_man Py.f_neg xorb].
    replace (- (L - 4 - 52)) with (56 - L) by lia.
    set (P := 2 ^ (56 - L)).
    assert (HP : 0 < P) by (apply Z.pow_pos_nonneg; lia).
    assert (HPL : P * 2 ^ L = 2 ^ 56).
    { unfold P. rewrite <- Z.pow_add_r by lia. f_equal. lia. }
    assert (HnP : 2 <= n * P).
    { change (2 ^ 56) with 72057594037927936 in HPL. nia. }
    pose proof (@round_half_even_bounds (n * P) 15 ltac:(nia) ltac:(lia)) as Hm.
    set (m := Py.round_half_even (n * P) 15) in *.
    assert (Hm' : 0 <= m < n * P) by (Z.div_mod_to_equations; nia).
    destruct (0 <=? L - 4 - 52) eqn:Hq0; intros Hv; injection Hv as <-.
    + apply Z.leb_le in Hq0. assert (L = 56) by lia.
      unfold P in Hm'. replace (56 - L) with 0 in Hm' by lia.
      replace (L - 4 - 52) with 0 by lia. change (2 ^ 0) with 1 in *. lia.
    + split; [apply Z.div_pos; lia|].
      apply Z.div_lt_upper_bound; [lia|]. lia.
  - (* the quantum is 2 or more *)
    rewrite (Z.max_l 0 (- (L - 4 - 52))) by lia.
    rewrite (Z.max_r 0 (L - 4 - 52)) by lia.
    change (2 ^ 0) with 1. rewrite Z.mul_1_r.
    set (D := 2 ^ (L - 4 - 52)).
    assert (HD : 0 < D) by (apply Z.pow_pos_nonneg; lia).
    assert (HDL : D * 2 ^ 56 = 2 ^ L).
    { unfold D. rewrite <- Z.pow_add_r by lia. f_equal. lia. }
    pose proof (@round_half_even_bounds n (15 * D) ltac:(lia) ltac:(lia)) as Hm.
    set (m := Py.round_half_even n (15 * D)) in *.
    destruct ((971 <? L - 4 - 52) || ((L - 4 - 52 =? 971) && (2 ^ 53 <=? m)));
      [discriminate|].
    cbv [Py.map_result Py.int_of_float Py.f_exp Py.f_man Py.f_neg xorb].
    replace (0 <=? L - 4 - 52) with true by (symmetry; apply Z.leb_le; lia).
    fold D. intros Hv. injection Hv as <-.
    change (2 ^ 56) with 72057594037927936 in HDL.
    assert (Hq15 : 15 * D * (n / (15 * D)) <= n)
      by (apply Z.mul_div_le; lia).
    split; [Z.div_mod_to_equations; nia|]. nia.
Qed.

Lemma overlap_below_chunk_size_witness :
  0 <= 2 ^ 50 + 1 < 15 * 2 ^ 50 + 14.
Proof.
  apply (@overlap_below_chunk_size (15 * 2 ^ 50 + 14) (2 ^ 50 + 1)).
  - reflexivity.
  - vm_compute. reflexivity.
Defined.

(** The quotient of the opposite size is the opposite quotient. *)
Lemma overlap_of_opp n :
  0 < n -> overlap_of (- n) = Py.map_result Z.opp (overlap_of n).
Proof.
  intros Hn. unfold overlap_of, Py.truediv.
  change (15 =? 0) with false. cbv iota.
  rewrite Z.abs_opp.
  replace (- n <? 0) with true by (symmetry; apply Z.ltb_lt; lia).
  replace (n <? 0) with false by (symmetry; apply Z.ltb_ge; lia).
  destruct (Py.nearest_float (Z.abs n) (Z.abs 15)) as [[m q]|]; simpl;
    [|reflexivity].
  unfold Py.int_of_float. simpl. reflexivity.
Qed.

(** X11.  For a chunk size that is zero or negative (above
    -(15 * 2^50 + 14)), [int(chunk_size/15)] is the quotient rounded
    toward zero, not the floor: it lies between the chunk size and 0, and
    for a negative size it is greater than the chunk size. *)
Theorem overlap_of_nonpositive n :
  - (15 * 2 ^ 50 + 14) < n <= 0 ->
  overlap_of n = Ok (Z.quot n 15)
  /\ n <= Z.quot n 15 <= 0
  /\ (n < 0 -> n < Z.quot n 15).
Proof.
  intros Hn. destruct (Z.eq_dec n 0) as [->|Hnz].
  - repeat split; try reflexivity; vm_compute; discriminate.
  - assert (Hpos : 0 < - n < 15 * 2 ^ 50 + 14) by lia.
    replace n with (- - n) at 1 by lia.
    rewrite (overlap_of_opp (proj1 Hpos)), (overlap_of_below Hpos). simpl.
    assert (Hq : Z.quot n 15 = - (- n / 15)).
    { replace n with (- - n) at 1 by lia.
      rewrite Z.quot_opp_l by lia. f_equal.
      apply Z.quot_div_nonneg; lia. }
    rewrite Hq. split; [reflexivity|].
    assert (0 <= - n / 15 < - n).
    { split; [apply Z.div_pos; lia|apply Z.div_lt_upper_bound; lia]. }
    lia.
Qed.


Lemma overlap_of_nonpositive_witness :
  overlap_of (-20) = Ok (Z.quot (-20) 15)
  /\ -20 <= Z.quot (-20) 15 <= 0
  /\ (-20 < 0 -> -20 < Z.quot (-20) 15).
Proof.
  apply (@overlap_of_nonpositive (-20)). vm_compute. split; congruence.
Defined.

Lemma round_half_even_spec num den :
  let m0 := num / den in
  let r := num mod den in
  (Py.round_half_even num den = m0
   /\ (2 * r < den \/ (2 * r = den /\ Z.even m0 = true)))
  \/ (Py.round_half_even num den = m0 + 1
      /\ (den < 2 * r \/ (2 * r = den /\ Z.even m0 = false))).
Proof.
  intros m0 r. unfold Py.round_half_even. fold m0 r.
  destruct (2 * r <? den) eqn:H1.
  - apply Z.ltb_lt in H1. left. auto.
  - apply Z.ltb_ge in H1. destruct (den <? 2 * r) eqn:H2.
    + apply Z.ltb_lt in H2. right. auto.
    + apply Z.ltb_ge in H2. assert (2 * r = den) by lia.
      destruct (Z.even m0) eqn:He; [left|right]; auto.
Qed.

Ltac literal_pow e :=
  let c := eval vm_compute in (2 ^ e) in change (2 ^ e) with c in *.

Lemma overlap_overflow_iff n :
  0 < n -> (Py.is_ok (overlap_of n) = false <-> overflow_size <= n).
Proof.
  intros Hn. unfold overlap_of, Py.truediv, Py.nearest_float.
  change (15 =? 0) with false. cbv iota.
  change (Z.abs 15) with 15. rewrite (Z.abs_eq n) by lia.
  destruct (n =? 0) eqn:Hz; [apply Z.eqb_eq in Hz; lia|].
  destruct (ilog2_fifteenth Hn) as (-> & HL0 & HL).
  assert (Hpos : 0 < n * 16 / 15) by (Z.div_mod_to_equations; lia).
  destruct (Z.log2_spec _ Hpos) as [_ Hhi].
  set (L := Z.log2 (n * 16 / 15)) in *.
  rewrite (Z.max_l (L - 4 - 52) (-1074)) by lia.
  assert (Hhi' : 16 * n - 15 < 15 * 2 ^ (L + 1)).
  { replace (Z.succ L) with (L + 1) in Hhi by lia.
    Z.div_mod_to_equations. lia. }
  clear Hhi Hpos Hz.
  unfold overflow_size.
  destruct (Z.lt_trichotomy (L - 4 - 52) 971) as [Hq|[Hq|Hq]].
  - (* below the last binade *)
    replace (971 <? L - 4 - 52) with false by (symmetry; apply Z.ltb_ge; lia).
    replace (L - 4 - 52 =? 971) with false by (symmetry; apply Z.eqb_neq; lia).
    simpl. split; [discriminate|]. intros Hge. exfalso.
    assert (HL' : 2 ^ (L + 1) <= 2 ^ 1027) by (apply Z.pow_le_mono_r; lia).
    literal_pow 1027. literal_pow 1024. literal_pow 970. lia.
  - (* the last binade *)
    rewrite Hq. change (971 <? 971) with false. change (971 =? 971) with true.
    change (Z.max 0 (-971)) with 0. change (Z.max 0 971) with 971.
    change (2 ^ 0) with 1. rewrite Z.mul_1_r.
    cbv [orb andb].
    assert (HLv : L = 1027) by lia.
    rewrite HLv in HL, Hhi'. change (1027 + 1) with 1028 in Hhi'. clear HLv Hq.
    pose proof (round_half_even_spec n (15 * 2 ^ 971)) as Hm. cbv zeta in Hm.
    pose proof (Z.div_mod n (15 * 2 ^ 971)) as Hdm.
    pose proof (Z.mod_pos_bound n (15 * 2 ^ 971)) as Hmod.
    set (m := Py.round_half_even n (15 * 2 ^ 971)) in *.
    set (m0 := n / (15 * 2 ^ 971)) in *.
    set (r := n mod (15 * 2 ^ 971)) in *.
    destruct (2 ^ 53 <=? m) eqn:Hov; simpl;
      [apply Z.leb_le in Hov|apply Z.leb_gt in Hov];
      clearbody m m0 r L;
      literal_pow 1028; literal_pow 1027; literal_pow 1024; literal_pow 970;
      literal_pow 971; literal_pow 53;
      specialize (Hdm ltac:(lia)); specialize (Hmod ltac:(lia)).
    + split; [intros _|reflexivity].
      destruct Hm as [[Hm _]|[Hm [Hr|[Hr _]]]]; lia.
    + split; [discriminate|]. intros Hge. exfalso.
      assert (Hm0 : m0 = 9007199254740991)
        by (destruct Hm as [[Hm _]|[Hm _]]; lia).
      destruct Hm as [[Hm [Hlt|[_ Hev]]]|[Hm _]]; try lia.
      rewrite Hm0 in Hev. discriminate Hev.
  - (* beyond it *)
    replace (971 <? L - 4 - 52) with true by (symmetry; apply Z.ltb_lt; lia).
    simpl. split; [intros _|reflexivity].
    assert (HL' : 2 ^ 1028 <= 2 ^ L) by (apply Z.pow_le_mono_r; lia).
    literal_pow 1028. literal_pow 1024. literal_pow 970. lia.
Qed.
(** The one exception [int(chunk_size/15)] raises. *)
Lemma overlap_of_raises n e :
  overlap_of n = Raise e ->
  e = Py.OverflowError "integer division result too large for a float".
Proof.
  unfold overlap_of, Py.truediv. change (15 =? 0) with false. cbv iota.
  destruct (Py.nearest_float (Z.abs n) (Z.abs 15)) as [[m q]|]; simpl.
  - discriminate.
  - intros H. injection H as <-. reflexivity.
Qed.

(** X12.  For a positive chunk size, [int(chunk_size/15)] raises exactly
    from the size 15 * (2^1024 - 2^970) on, where the quotient is too
    large for a float; [__init__] then raises [OverflowError] before it
    has logged or built anything. *)
Theorem overlap_overflow cfg h :
  0 < text_chunk_size cfg ->
  (Py.is_ok (overlap_of (text_chunk_size cfg)) = false
   <-> overflow_size <= text_chunk_size cfg)
  /\ (overflow_size <= text_chunk_size cfg ->
      init cfg h
      = (Raise (Py.OverflowError
                  "integer division result too large for a float"), [])).
Proof.
  intros Hn. pose proof (overlap_overflow_iff Hn) as Hiff.
  split; [exact Hiff|]. intros Hge. apply Hiff in Hge.
  unfold init, bind, lift.
  destruct (overlap_of (text_chunk_size cfg)) as [v|e] eqn:Hov;
    [discriminate Hge|].
  now rewrite (overlap_of_raises _ Hov).
Qed.

Lemma overlap_overflow_witness :
  Py.is_ok (overlap_of (text_chunk_size Examples.settings_overflow)) = false
  /\ init Examples.settings_overflow []
     = (Raise (Py.OverflowError
                 "integer division result too large for a float"), []).
Proof.
  destruct (@overlap_overflow Examples.settings_overflow [] eq_refl)
    as [Hraises Hinit].
  split.
  - apply Hraises. apply Z.le_refl.
  - apply Hinit. apply Z.le_refl.
Defined.

(** At the least such size, and one below it. *)
Example overflow_at_the_edge :
  Py.is_ok (overlap_of overflow_size) = false
  /\ Py.is_ok (overlap_of (overflow_size - 1)) = true.
Proof. split; vm_compute; reflexivity. Qed.

End OverlapBounds.
